(** * Model-lifecycle service: parameter normalisation, metrics, training
      orchestration and the catalog handlers.

    Shallow embedding of [models.py], of the REST handlers of [app.py] and of
    the RPC handlers of [grpc_server.py].

    Conventions.
    - A Python [str] is a [string] whose characters are read as the code
      points U+0000..U+00FF (Latin-1).  On that range the predicates of the
      Unicode database used by [str.isdigit], [int] and [float] are finite
      tables, written out below.
    - A Python [float] is kept as the decimal literal it was read from
      ([FDec neg m e] stands for the binary64 number nearest to
      [(-1)^neg * m * 10^e]); rounding is not carried out.
    - A Python [dict] with string keys is a [gmap string _].
    - Exceptions are identified by their class and a short tag, not by the
      full rendered message; a log record by its logger, its level and the
      text of the f-string as written.
    - Arguments have the types of their annotations and of the declared
      request models: features are a list of lists, labels a list,
      parameters a mapping with string keys.
    - The estimator library and the tracking server are parameters of the
      model; the tracking client has one ambient active run. *)

From Stdlib Require Import ZArith NArith List String Ascii Bool Lia.
From stdpp Require Import base option gmap strings pretty list fin_maps.

Local Open Scope string_scope.
Set Warnings "-register-all".

(* ===================================================================== *)
(** ** Python strings: character classes *)
(* ===================================================================== *)

Module PyStr.

Definition code (c : ascii) : N := N_of_ascii c.

(** [0-9]: the only characters of Latin-1 with a decimal value. *)
Definition is_decimal_char (c : ascii) : bool :=
  ((48 <=? code c) && (code c <=? 57))%N.

(** Characters for which [str.isdigit] holds: the decimal digits and the
    superscripts U+00B2, U+00B3 and U+00B9 (Numeric_Type=Digit). *)
Definition is_digit_char (c : ascii) : bool :=
  is_decimal_char c
  || (code c =? 178)%N || (code c =? 179)%N || (code c =? 185)%N.

(** Whitespace as [int] and [float] strip it. *)
Definition is_space_char (c : ascii) : bool :=
  ((9 <=? code c) && (code c <=? 13))%N
  || ((28 <=? code c) && (code c <=? 32))%N
  || (code c =? 133)%N || (code c =? 160)%N.

Definition digit_of (c : ascii) : N := (code c - 48)%N.

Fixpoint all_chars (p : ascii -> bool) (s : string) : bool :=
  match s with
  | EmptyString => true
  | String c s' => p c && all_chars p s'
  end.

(** [str.isdigit()]: at least one character, and every character a digit. *)
Definition isdigit (s : string) : bool :=
  match s with
  | EmptyString => false
  | String _ _ => all_chars is_digit_char s
  end.

(** [str.isdecimal()], used only to state properties. *)
Definition isdecimal (s : string) : bool :=
  match s with
  | EmptyString => false
  | String _ _ => all_chars is_decimal_char s
  end.

Fixpoint lstrip (s : string) : string :=
  match s with
  | EmptyString => EmptyString
  | String c s' => if is_space_char c then lstrip s' else s
  end.

Fixpoint rstrip (s : string) : string :=
  match s with
  | EmptyString => EmptyString
  | String c s' =>
      match rstrip s' with
      | EmptyString => if is_space_char c then EmptyString else String c EmptyString
      | r => String c r
      end
  end.

Definition strip (s : string) : string := rstrip (lstrip s).

(** Value of a run of decimal digits, most significant first. *)
Fixpoint digits_value (acc : N) (s : string) : N :=
  match s with
  | EmptyString => acc
  | String c s' => digits_value (10 * acc + digit_of c)%N s'
  end.

Definition head_is_decimal (s : string) : bool :=
  match s with
  | String c _ => is_decimal_char c
  | EmptyString => false
  end.

(** The longest prefix [digit (["_"] digit)*]; returns its digits (without
    the underscores) and the rest.  [prev] tells whether the character just
    read was a digit: an underscore is accepted only between two digits. *)
Fixpoint span_digits (prev : bool) (s : string) : string * string :=
  match s with
  | EmptyString => (EmptyString, EmptyString)
  | String c s' =>
      if is_decimal_char c then
        let '(d, r) := span_digits true s' in (String c d, r)
      else if (code c =? 95)%N && prev && head_is_decimal s' then
        span_digits false s'
      else (EmptyString, s)
  end.

(** An optional sign: [true] for "-". *)
Definition take_sign (s : string) : bool * string :=
  match s with
  | String c s' =>
      if (code c =? 45)%N then (true, s')
      else if (code c =? 43)%N then (false, s')
      else (false, s)
  | EmptyString => (false, s)
  end.

(** ASCII lower-casing, for the case-insensitive "inf", "infinity", "nan". *)
Definition lower_char (c : ascii) : ascii :=
  if ((65 <=? code c) && (code c <=? 90))%N then ascii_of_N (code c + 32) else c.

Fixpoint lower (s : string) : string :=
  match s with
  | EmptyString => EmptyString
  | String c s' => String (lower_char c) (lower s')
  end.

(** The interpreter's limit on the number of digits [int] accepts
    (the default of [sys.get_int_max_str_digits()]). *)
Definition int_max_str_digits : nat := 4300.

(** [int(s)] for a string, base 10: [None] is [ValueError]. *)
Definition py_int (s : string) : option Z :=
  let '(neg, u) := take_sign (strip s) in
  match span_digits false u with
  | (EmptyString, _) => None
  | (d, EmptyString) =>
      if (int_max_str_digits <? String.length d)%nat then None
      else Some (if neg then - Z.of_N (digits_value 0 d) else Z.of_N (digits_value 0 d))%Z
  | (_, String _ _) => None
  end.

End PyStr.

(* ===================================================================== *)
(** ** Python floats read from text *)
(* ===================================================================== *)

Inductive pyfloat : Type :=
| FDec (neg : bool) (m : N) (e : Z)
| FInf (neg : bool)
| FNan.

Module PyFloat.
Import PyStr.

(** The exponent part ["e" [sign] digitpart] followed by the end of the
    text; an empty rest is exponent 0. *)
Definition exponent (s : string) : option Z :=
  match s with
  | EmptyString => Some 0%Z
  | String c r =>
      if (code c =? 101)%N || (code c =? 69)%N then
        let '(neg, u) := take_sign r in
        match span_digits false u with
        | (EmptyString, _) => None
        | (d, EmptyString) =>
            Some (if neg then - Z.of_N (digits_value 0 d) else Z.of_N (digits_value 0 d))%Z
        | (_, String _ _) => None
        end
      else None
  end.

(** [number [exponent]] after the sign. *)
Definition floatnumber (neg : bool) (u : string) : option pyfloat :=
  let '(ip, r1) := span_digits false u in
  let '(fp, r2) :=
    match r1 with
    | String c r => if (code c =? 46)%N then span_digits false r else (EmptyString, r1)
    | EmptyString => (EmptyString, r1)
    end in
  match ip, fp with
  | EmptyString, EmptyString => None
  | _, _ =>
      match exponent r2 with
      | Some x =>
          Some (FDec neg (digits_value (digits_value 0 ip) fp)
                     (x - Z.of_nat (String.length fp)))
      | None => None
      end
  end.

(** [float(s)] for a string: [None] is [ValueError]. *)
Definition py_float (s : string) : option pyfloat :=
  let '(neg, u) := take_sign (strip s) in
  let l := lower u in
  if String.eqb l "inf" || String.eqb l "infinity" then Some (FInf neg)
  else if String.eqb l "nan" then Some FNan
  else floatnumber neg u.

End PyFloat.

(** The literal [0.0]. *)
Definition float_zero : pyfloat := FDec false 0 0.

(* ===================================================================== *)
(** ** Values, exceptions, observable events *)
(* ===================================================================== *)

(** JSON-shaped Python values, as the transport layers deliver them. *)
Inductive pyval : Type :=
| PNone
| PBool (b : bool)
| PInt (n : Z)
| PFloat (f : pyfloat)
| PStr (s : string)
| PList (l : list pyval)
| PDict (d : list (string * pyval)).

Inductive grpc_status : Type := INVALID_ARGUMENT | NOT_FOUND | INTERNAL.

Inductive exn : Type :=
| ValueError (what : string)
| KeyError (key : string)
| IntegrityError (key : string)
| LibraryError (cls msg : string)
| HTTPException (code : Z) (description : string) (cause : option exn)
| RpcAbort (status : grpc_status) (details : string) (cause : option exn).

(** [inl e]: the exception [e] was raised. *)
Definition result (A : Type) : Type := (exn + A)%type.

Inductive level : Type := DEBUG | INFO | WARNING | ERROR.

Inductive run_status : Type := FINISHED | FAILED.

Inductive model_class : Type := RandomForestClassifier | LogisticRegression.

Inductive event : Type :=
| EvLog (logger : string) (lvl : level) (text : string)
| EvEndRun (run : string) (status : run_status)
| EvStartRun (run : string)
| EvLogParam (run : string) (key : string) (value : pyval)
| EvLogParams (run : string) (params : gmap string pyval)
| EvLogMetrics (run : string) (metrics : gmap string pyfloat)
| EvLogModel (run : string) (name : string)
| EvConstruct (cls : model_class) (params : gmap string pyval)
| EvFit
| EvPredict.

(** The catalog entity, [class MLModel(db.Model)]. *)
Record MLModel : Type := mkMLModel {
  id : string;
  model_type : string;
  params : gmap string pyval;
  file_path : string;
  created_at : Z;
  metrics : gmap string pyfloat
}.

(** Pending work of [db.session]. *)
Inductive db_op : Type :=
| DbAdd (record : MLModel)
| DbDelete (record : MLModel).

(** The ambient state the code reads and writes: the tracking client's
    active run, the run identifiers the tracking store has issued, the
    committed rows of the catalog table, the pending operations of the
    request's database session, the clock. *)
Record world : Type := mkWorld {
  w_active : option string;
  w_runs : list string;
  w_catalog : list MLModel;
  w_session : list db_op;
  w_clock : Z
}.

(* ===================================================================== *)
(** ** State, exceptions and a trace of events *)
(* ===================================================================== *)

Definition M (A : Type) : Type := world -> result A * world * list event.

Definition ret {A : Type} (a : A) : M A := fun w => (inr a, w, []).

Definition bind {A B : Type} (m : M A) (k : A -> M B) : M B :=
  fun w =>
    match m w with
    | (inl e, w1, t1) => (inl e, w1, t1)
    | (inr a, w1, t1) =>
        match k a w1 with
        | (r, w2, t2) => (r, w2, (t1 ++ t2)%list)
        end
    end.

Definition raise {A : Type} (e : exn) : M A := fun w => (inl e, w, []).

(** [try: m  except Exception as e: h e] *)
Definition try_except {A : Type} (m : M A) (h : exn -> M A) : M A :=
  fun w =>
    match m w with
    | (inl e, w1, t1) =>
        match h e w1 with
        | (r, w2, t2) => (r, w2, (t1 ++ t2)%list)
        end
    | (inr a, w1, t1) => (inr a, w1, t1)
    end.

Definition lift {A : Type} (r : result A) : M A := fun w => (r, w, []).

Definition emit (e : event) : M unit := fun w => (inr tt, w, [e]).

Definition gets {A : Type} (f : world -> A) : M A := fun w => (inr (f w), w, []).

Definition modify (f : world -> world) : M unit := fun w => (inr tt, f w, []).

#[global] Instance M_ret : MRet M := @ret.
#[global] Instance M_bind : MBind M := fun A B k m => bind m k.

(** What a computation returned or raised, its final state, its events. *)
Definition outcome {A : Type} (x : result A * world * list event) : result A := x.1.1.
Definition final {A : Type} (x : result A * world * list event) : world := x.1.2.
Definition events {A : Type} (x : result A * world * list event) : list event := x.2.

(** Every logger of the program is set to [logging.INFO]: a [debug] call
    emits nothing. *)
Definition level_enabled (l : level) : bool :=
  match l with DEBUG => false | _ => true end.

Definition log (logger : string) (l : level) (text : string) : M unit :=
  if level_enabled l then emit (EvLog logger l text) else ret tt.

(* ===================================================================== *)
(** ** [models.py]: the registry and the parameter normaliser *)
(* ===================================================================== *)

Record registry_entry : Type := mkEntry {
  entry_class : model_class;
  hyperparameters : list string;
  description : string
}.

Definition AVAILABLE_MODELS : gmap string registry_entry :=
  <["random_forest" :=
      mkEntry RandomForestClassifier ["n_estimators"; "max_depth"; "random_state"]
              "Random Forest Classifier"]>
  (<["logistic_regression" :=
      mkEntry LogisticRegression ["C"; "solver"; "max_iter"]
              "Logistic Regression"]> ∅).

(** The body of the loop of [convert_params] for one value. *)
Definition convert_value (value : pyval) : result pyval :=
  match value with
  | PStr s =>
      if PyStr.isdigit s then
        match PyStr.py_int s with
        | Some n => inr (PInt n)
        | None => inl (ValueError "invalid literal for int() with base 10")
        end
      else
        match PyFloat.py_float s with
        | Some f => inr (PFloat f)
        | None => inr (PStr s)
        end
  | _ => inr value
  end.

Definition convert_params (params : gmap string pyval) : M (gmap string pyval) :=
  converted_params ←
    map_fold (fun key value (acc : M (gmap string pyval)) =>
                converted_params ← acc;
                v ← lift (convert_value value);
                mret (<[key := v]> converted_params))
             (mret ∅) params;
  log "models" INFO
      "Parameters conversion completed. Converted {len(converted_params)} parameters";;
  mret converted_params.

(* ===================================================================== *)
(** ** The tracking client and the database session *)
(* ===================================================================== *)

(** Calls of the tracking client that reach the tracking server. *)
Inductive mlflow_call : Type :=
| CEndRun | CStartRun | CLogParam | CLogParams | CLogMetrics | CLogModel.

Definition set_active (a : option string) (w : world) : world :=
  mkWorld a (w_runs w) (w_catalog w) (w_session w) (w_clock w).

Definition add_run (r : string) (w : world) : world :=
  mkWorld (w_active w) (r :: w_runs w) (w_catalog w) (w_session w) (w_clock w).

Definition set_session (s : list db_op) (w : world) : world :=
  mkWorld (w_active w) (w_runs w) (w_catalog w) s (w_clock w).

Definition set_catalog (c : list MLModel) (w : world) : world :=
  mkWorld (w_active w) (w_runs w) c (w_session w) (w_clock w).

(** The row with primary key [k], if any. *)
Definition lookup_row (k : string) (c : list MLModel) : option MLModel :=
  List.find (fun r => String.eqb (id r) k) c.

Definition delete_row (k : string) (c : list MLModel) : list MLModel :=
  List.filter (fun r => negb (String.eqb (id r) k)) c.

(** Rows removed by the pending deletes. *)
Fixpoint flush_deletes (ops : list db_op) (c : list MLModel) : list MLModel :=
  match ops with
  | [] => c
  | DbDelete r :: ops' => flush_deletes ops' (delete_row (id r) c)
  | DbAdd _ :: ops' => flush_deletes ops' c
  end.

(** Rows inserted by the pending adds; the primary key must be free. *)
Fixpoint flush_adds (ops : list db_op) (c : list MLModel) : result (list MLModel) :=
  match ops with
  | [] => inr c
  | DbAdd r :: ops' =>
      match lookup_row (id r) c with
      | Some _ => inl (IntegrityError (id r))
      | None => flush_adds ops' (c ++ [r])
      end
  | DbDelete _ :: ops' => flush_adds ops' c
  end.

(** [db.session.add(record)] *)
Definition db_add (record : MLModel) : M unit :=
  modify (fun w => set_session (w_session w ++ [DbAdd record]) w).

(** [db.session.delete(record)] *)
Definition db_delete (record : MLModel) : M unit :=
  modify (fun w => set_session (w_session w ++ [DbDelete record]) w).

(** [db.session.commit()]: one transaction; when it fails nothing of it is
    written. *)
Definition db_commit : M unit :=
  fun w =>
    match flush_adds (w_session w) (flush_deletes (w_session w) (w_catalog w)) with
    | inr c => (inr tt, set_session [] (set_catalog c w), [])
    | inl e => (inl e, w, [])
    end.

(** [MLModel.query.filter_by(id=model_id).first()] *)
Definition query_first (model_id : string) : M (option MLModel) :=
  gets (fun w => lookup_row model_id (w_catalog w)).

(** Run a computation and hand back what it returned or raised. *)
Definition attempt {A : Type} (m : M A) : M (result A) :=
  try_except (v ← m; mret (inr v)) (fun e => mret (inl e)).

Definition default_metrics : gmap string pyfloat :=
  <["accuracy" := float_zero]> (<["precision" := float_zero]> (<["recall" := float_zero]> ∅)).

Section Service.

(** The estimator library: construction from keyword arguments, [fit],
    [predict], and the three scorers (precision and recall with
    [average='weighted', zero_division=0]). *)
Variable estimator : Type.
Variable construct : model_class -> gmap string pyval -> result estimator.
Variable fit : estimator -> list (list pyval) -> list pyval -> result estimator.
Variable predict : estimator -> list (list pyval) -> result (list pyval).
Variable accuracy_score : list pyval -> list pyval -> result pyfloat.
Variable precision_score : list pyval -> list pyval -> result pyfloat.
Variable recall_score : list pyval -> list pyval -> result pyfloat.

(** The tracking server: the identifier it gives to a new run, and whether
    a call to it fails, given the client's active run and the runs so far. *)
Variable new_run_id : list string -> string.
Variable mlflow_fault : mlflow_call -> option string -> list string -> option exn.

Definition fault (c : mlflow_call) : M unit :=
  fun w =>
    match mlflow_fault c (w_active w) (w_runs w) with
    | Some e => (inl e, w, [])
    | None => (inr tt, w, [])
    end.

(** [mlflow.active_run()] *)
Definition active_run : M (option string) := gets w_active.

(** [mlflow.end_run(status)]: the client forgets the run, then tells the
    server. *)
Definition end_run (status : run_status) : M unit :=
  a ← active_run;
  match a with
  | None => mret tt
  | Some r =>
      modify (set_active None);;
      emit (EvEndRun r status);;
      fault CEndRun
  end.

(** [mlflow.start_run()], not nested. *)
Definition start_run : M string :=
  a ← active_run;
  match a with
  | Some r => raise (LibraryError "Exception" "Run is already active")
  | None =>
      fault CStartRun;;
      r ← gets (fun w => new_run_id (w_runs w));
      modify (fun w => set_active (Some r) (add_run r w));;
      emit (EvStartRun r);;
      mret r
  end.

Definition get_or_start_run : M string :=
  a ← active_run;
  match a with
  | Some r => mret r
  | None => start_run
  end.

Definition log_param (key : string) (value : pyval) : M unit :=
  r ← get_or_start_run; emit (EvLogParam r key value);; fault CLogParam.

Definition log_params (p : gmap string pyval) : M unit :=
  r ← get_or_start_run; emit (EvLogParams r p);; fault CLogParams.

Definition log_metrics (m : gmap string pyfloat) : M unit :=
  r ← get_or_start_run; emit (EvLogMetrics r m);; fault CLogMetrics.

Definition log_model (name : string) : M unit :=
  r ← get_or_start_run; emit (EvLogModel r name);; fault CLogModel.

(** [with mlflow.start_run() as run: body]: the run is ended with status
    FINISHED when the body returns and FAILED when it raises. *)
Definition with_start_run {A : Type} (body : string -> M A) : M A :=
  run ← start_run;
  r ← attempt (body run);
  match r with
  | inr v => end_run FINISHED;; mret v
  | inl e => end_run FAILED;; raise e
  end.

(* ===================================================================== *)
(** ** [models.py]: metrics, training, record construction *)
(* ===================================================================== *)

Definition calculate_metrics (y_true y_pred : list pyval) : M (gmap string pyfloat) :=
  log "models" DEBUG "Calculating metrics for {len(y_true)} samples";;
  try_except
    (accuracy ← lift (accuracy_score y_true y_pred);
     precision ← lift (precision_score y_true y_pred);
     recall ← lift (recall_score y_true y_pred);
     let metrics :=
       <["accuracy" := accuracy]> (<["precision" := precision]> (<["recall" := recall]> ∅)) in
     log "models" INFO
         "Metrics calculated - Accuracy: {accuracy:.4f}, Precision: {precision:.4f}, Recall: {recall:.4f}";;
     mret metrics)
    (fun e =>
       log "models" ERROR "Error calculating metrics: {str(e)}";;
       mret default_metrics).

Definition train_and_log_model (model_type : string) (params : gmap string pyval)
    (X : list (list pyval)) (y : list pyval)
  : M (string * gmap string pyfloat * string) :=
  a ← active_run;
  match a with
  | Some _ =>
      log "models" WARNING "Found active MLflow run. Ending it forcefully.";;
      end_run FINISHED
  | None => mret tt
  end;;
  log "models" INFO "Starting training for {model_type}";;
  converted_params ← convert_params params;
  ModelClass ← lift (match AVAILABLE_MODELS !! model_type with
                     | Some entry => inr (entry_class entry)
                     | None => inl (KeyError model_type)
                     end);
  emit (EvConstruct ModelClass converted_params);;
  model ← lift (construct ModelClass converted_params);
  emit EvFit;;
  model ← lift (fit model X y);
  emit EvPredict;;
  y_pred ← lift (predict model X);
  metrics ← calculate_metrics y y_pred;
  with_start_run (fun run_id =>
    log_param "model_type" (PStr model_type);;
    log_params converted_params;;
    log_metrics metrics;;
    log_model "model";;
    let model_uri := "runs:/" +:+ run_id +:+ "/model" in
    log "models" INFO "Model logged to MLflow. Run ID: {run_id}";;
    mret (run_id, metrics, model_uri)).

Definition create_model_record (model_id model_type : string)
    (params : gmap string pyval) (file_path : string) (metrics : gmap string pyfloat)
  : M MLModel :=
  log "models" INFO "Creating model record: ID={model_id}, Type={model_type}";;
  log "models" DEBUG "Model params: {params}, Metrics: {metrics}";;
  now ← gets w_clock;
  let record := mkMLModel model_id model_type params file_path now metrics in
  log "models" DEBUG "Model record created successfully: {model_id}";;
  mret record.

(* ===================================================================== *)
(** ** [app.py]: the REST handlers that write the catalog *)
(* ===================================================================== *)

(** [abort(code, description)] of flask-restx; [cause] is the exception
    whose text the description interpolates. *)
Definition abort {A : Type} (code : Z) (description : string) (cause : option exn) : M A :=
  raise (HTTPException code description cause).

(** [TrainModel.post]: body [{'model_id', 'metrics'}], status 201. *)
Definition TrainModel_post (model_type : string) (params : gmap string pyval)
    (X : list (list pyval)) (y : list pyval)
  : M (string * gmap string pyfloat * Z) :=
  log "flask_app" INFO "Starting model training request";;
  log "flask_app" INFO "Training model type: {model_type} with {len(X)} samples";;
  match AVAILABLE_MODELS !! model_type with
  | None =>
      log "flask_app" ERROR "Unsupported model type: {model_type}";;
      abort 400 "Unsupported model type" None
  | Some _ => mret tt
  end;;
  '(run_id, metrics, model_uri) ←
    try_except (train_and_log_model model_type params X y)
      (fun e =>
         log "flask_app" ERROR "Training failed: {e}";;
         abort 500 "Training failed: {str(e)}" (Some e));
  record ← create_model_record run_id model_type params model_uri metrics;
  db_add record;;
  db_commit;;
  log "flask_app" INFO "Model trained successfully. ID: {run_id}, Metrics: {metrics}";;
  mret (run_id, metrics, 201%Z).

(** [ModelById.delete]: status 204. *)
Definition ModelById_delete (model_id : string) : M Z :=
  log "flask_app" INFO "Request to delete model: {model_id}";;
  record ← query_first model_id;
  match record with
  | None =>
      log "flask_app" WARNING "Model not found for deletion: {model_id}";;
      abort 404 "Model not found" None
  | Some record =>
      db_delete record;;
      db_commit;;
      log "flask_app" INFO "Model record deleted successfully: {model_id}";;
      mret 204%Z
  end.

(** [ModelRetrain.post]: body [{'status', 'new_model_id', 'metrics'}],
    status 200. *)
Definition ModelRetrain_post (model_id : string) (X : list (list pyval)) (y : list pyval)
  : M (string * gmap string pyfloat * Z) :=
  log "flask_app" INFO "Retrain request for model: {model_id}";;
  record ← query_first model_id;
  match record with
  | None =>
      log "flask_app" WARNING "Model not found for retraining: {model_id}";;
      abort 404 "Model not found" None
  | Some record =>
      let params := params record in
      let model_type := model_type record in
      '(new_run_id, metrics, new_model_uri) ←
        try_except (train_and_log_model model_type params X y)
          (fun e =>
             log "flask_app" ERROR "Retraining failed: {e}";;
             abort 500 "Retraining failed: {str(e)}" (Some e));
      db_delete record;;
      new_record ← create_model_record new_run_id model_type params new_model_uri metrics;
      db_add new_record;;
      db_commit;;
      log "flask_app" INFO
          "Model retrained. Old ID: {model_id}, New ID: {new_run_id}, Metrics: {metrics}";;
      mret (new_run_id, metrics, 200%Z)
  end.

(* ===================================================================== *)
(** ** [grpc_server.py]: the RPC handlers that write the catalog *)
(* ===================================================================== *)

(** [context.abort(status, details)] *)
Definition context_abort {A : Type} (status : grpc_status) (details : string)
    (cause : option exn) : M A :=
  raise (RpcAbort status details cause).

(** [MLService.TrainModel]: [TrainResponse(model_id, metrics)]. *)
Definition TrainModel (model_type : string) (request_params : gmap string string)
    (X : list (list pyval)) (y : list pyval)
  : M (string * gmap string pyfloat) :=
  log "grpc_server" INFO "Starting model training request via gRPC";;
  let params : gmap string pyval := PStr <$> request_params in
  log "grpc_server" INFO "Training model type: {model_type} with {len(X)} samples via gRPC";;
  match AVAILABLE_MODELS !! model_type with
  | None =>
      log "grpc_server" ERROR "Unsupported model type via gRPC: {model_type}";;
      context_abort INVALID_ARGUMENT "Unsupported model type" None
  | Some _ => mret tt
  end;;
  try_except
    ('(run_id, metrics, model_uri) ← train_and_log_model model_type params X y;
     record ← create_model_record run_id model_type params model_uri metrics;
     db_add record;;
     db_commit;;
     log "grpc_server" INFO "Model trained successfully via gRPC. ID: {run_id}, Metrics: {metrics}";;
     mret (run_id, metrics))
    (fun e =>
       log "grpc_server" ERROR "Training failed via gRPC: {e}";;
       context_abort INTERNAL "Training failed: {str(e)}" (Some e)).

(** [MLService.DeleteModel]: [DeleteResponse(success=True)]. *)
Definition DeleteModel (model_id : string) : M bool :=
  log "grpc_server" INFO "Request to delete model via gRPC: {request.model_id}";;
  record ← query_first model_id;
  match record with
  | None =>
      log "grpc_server" WARNING "Model not found for deletion via gRPC: {request.model_id}";;
      context_abort NOT_FOUND "Model not found" None
  | Some record =>
      db_delete record;;
      db_commit;;
      log "grpc_server" INFO "Model deleted successfully via gRPC: {request.model_id}";;
      mret true
  end.

(** [MLService.RetrainModel]: [RetrainResponse(metrics)]. *)
Definition RetrainModel (model_id : string) (X : list (list pyval)) (y : list pyval)
  : M (gmap string pyfloat) :=
  log "grpc_server" INFO "Retrain request for model via gRPC: {request.model_id}";;
  record ← query_first model_id;
  match record with
  | None =>
      log "grpc_server" WARNING "Model not found for retraining via gRPC: {request.model_id}";;
      context_abort NOT_FOUND "Model not found" None
  | Some record =>
      let params := params record in
      let model_type := model_type record in
      try_except
        ('(new_run_id, metrics, new_model_uri) ← train_and_log_model model_type params X y;
         db_delete record;;
         new_record ← create_model_record new_run_id model_type params new_model_uri metrics;
         db_add new_record;;
         db_commit;;
         log "grpc_server" INFO
             "Model retrained successfully via gRPC. Old ID: {request.model_id}, New ID: {new_run_id}";;
         mret metrics)
        (fun e =>
           log "grpc_server" ERROR "Retraining failed via gRPC: {e}";;
           context_abort INTERNAL "Retraining failed: {str(e)}" (Some e))
  end.

(* ===================================================================== *)
(** ** The two servers, over the endpoints that write the catalog *)
(* ===================================================================== *)

(** A request to one of the catalog-writing endpoints: the REST routes
    [/models/train], [/models/<id>] (DELETE), [/models/<id>/retrain], and
    the RPC methods [TrainModel], [DeleteModel], [RetrainModel]. *)
Inductive request : Type :=
| PostTrain (model_type : string) (params : gmap string pyval)
            (X : list (list pyval)) (y : list pyval)
| DeleteById (model_id : string)
| PostRetrain (model_id : string) (X : list (list pyval)) (y : list pyval)
| RpcTrain (model_type : string) (request_params : gmap string string)
           (X : list (list pyval)) (y : list pyval)
| RpcDelete (model_id : string)
| RpcRetrain (model_id : string) (X : list (list pyval)) (y : list pyval).

(** Dispatch of one request.  Each request runs in its own application
    context, hence with a database session of its own; the response is
    dropped. *)
Definition serve (r : request) : M unit :=
  modify (set_session []);;
  match r with
  | PostTrain model_type params X y => TrainModel_post model_type params X y;; mret tt
  | DeleteById model_id => ModelById_delete model_id;; mret tt
  | PostRetrain model_id X y => ModelRetrain_post model_id X y;; mret tt
  | RpcTrain model_type request_params X y =>
      TrainModel model_type request_params X y;; mret tt
  | RpcDelete model_id => DeleteModel model_id;; mret tt
  | RpcRetrain model_id X y => RetrainModel model_id X y;; mret tt
  end.

(** The state after a sequence of requests, whatever each returned. *)
Fixpoint serve_all (rs : list request) (w : world) : world :=
  match rs with
  | [] => w
  | r :: rs' => serve_all rs' (final (serve r w))
  end.

End Service.

(* ===================================================================== *)
(** ** The endpoints that read the catalog *)
(* ===================================================================== *)

(** What [MLModel.to_dict] returns: the row without its [file_path].
    [view_created_at] stands for the ISO text of the creation time. *)
Record model_view : Type := mkView {
  view_id : string;
  view_model_type : string;
  view_params : gmap string pyval;
  view_created_at : option Z;
  view_metrics : gmap string pyfloat
}.

(** The dictionary [MLModel.to_dict] builds. *)
Definition view_of (self : MLModel) : model_view :=
  mkView (id self) (model_type self) (params self)
         (Some (created_at self)) (metrics self).

(** [MLModel.to_dict] *)
Definition to_dict (self : MLModel) : M model_view :=
  log "models" DEBUG "Converting model {self.id} to dictionary";;
  mret (view_of self).

(** [[f(x) for x in l]] *)
Fixpoint for_each {A B : Type} (f : A -> M B) (l : list A) : M (list B) :=
  match l with
  | [] => mret []
  | x :: l' => y ← f x; ys ← for_each f l'; mret (y :: ys)
  end.

(** [ListModels.get]: status 200. *)
Definition ListModels_get : M (list model_view * Z) :=
  log "flask_app" INFO "Request for list of all models";;
  models ← gets w_catalog;
  result ← for_each to_dict models;
  log "flask_app" INFO "Returning {len(result)} models";;
  mret (result, 200%Z).

(** [ModelById.get]: status 200. *)
Definition ModelById_get (model_id : string) : M (model_view * Z) :=
  log "flask_app" INFO "Request for model info: {model_id}";;
  record ← query_first model_id;
  match record with
  | None =>
      log "flask_app" WARNING "Model not found: {model_id}";;
      abort 404 "Model not found" None
  | Some record =>
      log "flask_app" INFO "Returning model info: {model_id}";;
      view ← to_dict record;
      mret (view, 200%Z)
  end.

(** [ModelMetrics.get]: status 200. *)
Definition ModelMetrics_get (model_id : string) : M (gmap string pyfloat * Z) :=
  log "flask_app" INFO "Metrics request for model: {model_id}";;
  record ← query_first model_id;
  match record with
  | None =>
      log "flask_app" WARNING "Model not found for metrics: {model_id}";;
      abort 404 "Model not found" None
  | Some record =>
      log "flask_app" INFO "Returning metrics for model: {model_id}";;
      mret (metrics record, 200%Z)
  end.

(** [MLService.GetMetrics]: [MetricsResponse(metrics)]. *)
Definition GetMetrics (model_id : string) : M (gmap string pyfloat) :=
  log "grpc_server" INFO "Metrics request for model via gRPC: {request.model_id}";;
  record ← query_first model_id;
  match record with
  | None =>
      log "grpc_server" WARNING "Model not found for metrics via gRPC: {request.model_id}";;
      context_abort NOT_FOUND "Model not found" None
  | Some record =>
      log "grpc_server" INFO "Returning metrics via gRPC for model: {request.model_id}";;
      mret (metrics record)
  end.

Section Readers.

(** The estimator library's [predict] and the tracking store's
    [mlflow.sklearn.load_model]. *)
Variable estimator : Type.
Variable predict : estimator -> list (list pyval) -> result (list pyval).
Variable load_model : string -> result estimator.

Definition load_model_from_mlflow (model_uri : string) : M estimator :=
  log "models" INFO "Loading model from URI: {model_uri}";;
  lift (load_model model_uri).

(** [ModelPredict.post]: body [{'predictions'}], status 200. *)
Definition ModelPredict_post (model_id : string) (X : list (list pyval))
  : M (list pyval * Z) :=
  log "flask_app" INFO "Prediction request for model: {model_id}";;
  record ← query_first model_id;
  match record with
  | None =>
      log "flask_app" WARNING "Model not found for prediction: {model_id}";;
      abort 404 "Model not found" None
  | Some record =>
      try_except
        (model ← load_model_from_mlflow (file_path record);
         log "flask_app" INFO "Making prediction with {len(X)} samples";;
         preds ← lift (predict model X);
         log "flask_app" INFO "Prediction completed. Returning {len(preds)} predictions";;
         mret (preds, 200%Z))
        (fun e =>
           log "flask_app" ERROR "Prediction failed: {e}";;
           abort 500 "Failed to load model or make prediction" None)
  end.

End Readers.

(* ===================================================================== *)
(** ** Predicates used in the statements *)
(* ===================================================================== *)

(** [q] holds, key by key, the converted values of [p]. *)
Definition converted_by (p q : gmap string pyval) : Prop :=
  forall k, (@inr exn pyval) <$> (q !! k) = convert_value <$> (p !! k).

(** A float between 0 and 1. *)
Definition in_unit (f : pyfloat) : bool :=
  match f with
  | FDec neg m e =>
      (negb neg || (m =? 0)%N)
      && (if (0 <=? e)%Z then (Z.of_N m * 10 ^ e <=? 1)%Z
          else (Z.of_N m <=? 10 ^ (- e))%Z)
  | FInf _ | FNan => false
  end.

Definition metric_names : gset string :=
  {["accuracy"; "precision"; "recall"]}.

(** Exactly the three metric names, each with a float between 0 and 1. *)
Definition metrics_ok (m : gmap string pyfloat) : Prop :=
  dom m = metric_names /\ forall k f, m !! k = Some f -> in_unit f = true.

(** The events of the estimator at work. *)
Definition is_training (e : event) : bool :=
  match e with
  | EvConstruct _ _ | EvFit | EvPredict => true
  | _ => false
  end.

(** The client's active run after an event. *)
Definition session_step (a : option string) (e : event) : option string :=
  match e with
  | EvEndRun _ _ => None
  | EvStartRun r => Some r
  | _ => a
  end.

(** No estimator event of the trace happens while a run is active, the
    trace starting with active run [a]. *)
Fixpoint trains_outside_session (a : option string) (t : list event) : bool :=
  match t with
  | [] => true
  | e :: t' =>
      (if is_training e then match a with None => true | Some _ => false end else true)
      && trains_outside_session (session_step a e) t'
  end.

(** The mapping [calculate_metrics] returns, given what the three scorers
    returned or raised. *)
Definition computed_metrics (accuracy precision recall : result pyfloat)
  : gmap string pyfloat :=
  match accuracy, precision, recall with
  | inr a, inr p, inr r =>
      <["accuracy" := a]> (<["precision" := p]> (<["recall" := r]> ∅))
  | _, _, _ => default_metrics
  end.

(** The event [calculate_metrics] logs. *)
Definition metrics_log (accuracy precision recall : result pyfloat) : event :=
  match accuracy, precision, recall with
  | inr _, inr _, inr _ =>
      EvLog "models" INFO
            "Metrics calculated - Accuracy: {accuracy:.4f}, Precision: {precision:.4f}, Recall: {recall:.4f}"
  | _, _, _ => EvLog "models" ERROR "Error calculating metrics: {str(e)}"
  end.

(** The warning of the recovery from a run left open. *)
Definition stale_run_warning : event :=
  EvLog "models" WARNING "Found active MLflow run. Ending it forcefully.".

(** The one event of a conversion that returns. *)
Definition conversion_log : event :=
  EvLog "models" INFO
        "Parameters conversion completed. Converted {len(converted_params)} parameters".

(** The loop of [convert_params]. *)
Definition convert_loop (params : gmap string pyval) : M (gmap string pyval) :=
  map_fold (fun key value (acc : M (gmap string pyval)) =>
              converted_params ← acc;
              v ← lift (convert_value value);
              mret (<[key := v]> converted_params))
           (mret ∅) params.

(** The artifact locator of a run. *)
Definition run_uri (run_id : string) : string := "runs:/" +:+ run_id +:+ "/model".

(** A row as the handlers write it: its artifact is that of its own run,
    and its model type is a key of the registry. *)
Definition row_ok (r : MLModel) : Prop :=
  file_path r = run_uri (id r) /\ is_Some (AVAILABLE_MODELS !! model_type r).

(** The primary keys of the rows, in order. *)
Definition row_ids (c : list MLModel) : list string := map id c.

(** An event that is a log record. *)
Definition is_log (e : event) : bool :=
  match e with EvLog _ _ _ => true | _ => false end.

(** The superscript two, U+00B2, as a one-character string. *)
Definition superscript_two : string := String (ascii_of_N 178) EmptyString.

(* ===================================================================== *)
(** ** A small estimator library and tracking server to run the model on *)
(* ===================================================================== *)

Module Stub.

(** An estimator that remembers the labels it was fitted on. *)
Definition estimator : Type := list pyval.

Definition construct (_ : model_class) (_ : gmap string pyval) : result estimator :=
  inr [].

Definition fit (_ : estimator) (X : list (list pyval)) (y : list pyval) : result estimator :=
  if (length X =? length y)%nat then inr y
  else inl (ValueError "inconsistent numbers of samples").

Definition predict (m : estimator) (_ : list (list pyval)) : result (list pyval) :=
  inr m.

(** A scorer that only compares lengths: 1.0, or [ValueError]. *)
Definition score (y_true y_pred : list pyval) : result pyfloat :=
  if (length y_true =? length y_pred)%nat then inr (FDec false 1 0)
  else inl (ValueError "inconsistent numbers of samples").

Definition new_run_id (runs : list string) : string :=
  "run" +:+ pretty (length runs).

Definition no_fault (_ : mlflow_call) (_ : option string) (_ : list string) : option exn :=
  None.

(** A server that rejects every new run. *)
Definition start_fault (c : mlflow_call) (_ : option string) (_ : list string) : option exn :=
  match c with
  | CStartRun => Some (LibraryError "MlflowException" "connection refused")
  | _ => None
  end.

Abbreviation train :=
  (train_and_log_model estimator construct fit predict score score score).

Definition w0 : world := mkWorld None [] [] [] 0.

Definition X4 : list (list pyval) :=
  [[PInt 0; PInt 0]; [PInt 0; PInt 1]; [PInt 1; PInt 0]; [PInt 1; PInt 1]].

Definition y4 : list pyval := [PInt 0; PInt 1; PInt 1; PInt 0].

Definition params4 : gmap string pyval :=
  <["n_estimators" := PStr "10"]> (<["max_depth" := PStr "3"]> ∅).

(** What [convert_params] makes of [params4]. *)
Definition converted4 : gmap string pyval :=
  <["n_estimators" := PInt 10]> (<["max_depth" := PInt 3]> ∅).

(** The REST and RPC retrain handlers over the small library. *)
Abbreviation retrain_post :=
  (ModelRetrain_post estimator construct fit predict score score score new_run_id no_fault).

Abbreviation retrain_rpc :=
  (RetrainModel estimator construct fit predict score score score new_run_id no_fault).

Abbreviation train_post :=
  (TrainModel_post estimator construct fit predict score score score new_run_id no_fault).

(** A catalog holding one record, ["a"]. *)
Definition record_a : MLModel :=
  mkMLModel "a" "random_forest" params4 "runs:/a/model" 0 default_metrics.

Definition w1 : world := mkWorld None ["a"] [record_a] [] 7.

(** The same, with a run left open. *)
Definition w2 : world := mkWorld (Some "stale") ["stale"; "a"] [record_a] [] 7.

(** A server that refuses the artifact of the model. *)
Definition log_model_fault (c : mlflow_call) (_ : option string) (_ : list string)
  : option exn :=
  match c with
  | CLogModel => Some (LibraryError "MlflowException" "artifact store unavailable")
  | _ => None
  end.

(** A store that holds the artifact of run ["a"] only: the labels [y4]. *)
Definition load_model (uri : string) : result estimator :=
  if String.eqb uri "runs:/a/model" then inr y4
  else inl (LibraryError "MlflowException" "no such artifact").

(** A catalog that already holds the identifier the server will issue. *)
Definition w3 : world :=
  mkWorld None []
          [mkMLModel "run0" "random_forest" params4 "runs:/run0/model" 0 default_metrics]
          [] 7.

End Stub.

(* ===================================================================== *)
(** ** Reading digits, integers and floats *)
(* ===================================================================== *)

Module PyStrFacts.
Import PyStr PyFloat.

Lemma decimal_not_space c : is_decimal_char c = true -> is_space_char c = false.
Proof. destruct c as [[] [] [] [] [] [] [] []]; try discriminate; reflexivity. Qed.

Lemma decimal_is_digit c : is_decimal_char c = true -> is_digit_char c = true.
Proof. unfold is_digit_char. intros ->. reflexivity. Qed.

Lemma decimal_not_sign c :
  is_decimal_char c = true -> forall s, take_sign (String c s) = (false, String c s).
Proof. destruct c as [[] [] [] [] [] [] [] []]; try discriminate; reflexivity. Qed.

Lemma decimal_not_name c :
  is_decimal_char c = true ->
  forall s, (String.eqb (lower (String c s)) "inf"
             || String.eqb (lower (String c s)) "infinity") = false
            /\ String.eqb (lower (String c s)) "nan" = false.
Proof.
  destruct c as [[] [] [] [] [] [] [] []]; try discriminate; intros _ s; split; reflexivity.
Qed.

Lemma all_chars_impl (p q : ascii -> bool) s :
  (forall c, p c = true -> q c = true) -> all_chars p s = true -> all_chars q s = true.
Proof.
  intros Hpq. induction s as [|c s IH]; simpl; [reflexivity|].
  intros [Hc Hs]%andb_true_iff. rewrite (Hpq _ Hc), (IH Hs). reflexivity.
Qed.

Lemma isdecimal_isdigit s : isdecimal s = true -> isdigit s = true.
Proof.
  destruct s as [|c s]; [discriminate|]. unfold isdecimal, isdigit.
  apply all_chars_impl, decimal_is_digit.
Qed.

Lemma lstrip_decimal s : all_chars is_decimal_char s = true -> lstrip s = s.
Proof.
  destruct s as [|c s]; simpl; [reflexivity|].
  intros [Hc _]%andb_true_iff. rewrite (decimal_not_space _ Hc). reflexivity.
Qed.

Lemma rstrip_no_space s :
  all_chars (fun c => negb (is_space_char c)) s = true -> rstrip s = s.
Proof.
  induction s as [|c s IH]; simpl; [reflexivity|].
  intros [Hc Hs]%andb_true_iff. rewrite (IH Hs).
  destruct s; [|reflexivity].
  apply negb_true_iff in Hc. rewrite Hc. reflexivity.
Qed.

Lemma rstrip_decimal s : all_chars is_decimal_char s = true -> rstrip s = s.
Proof.
  intros H. apply rstrip_no_space. revert H. apply all_chars_impl.
  intros c Hc. rewrite (decimal_not_space _ Hc). reflexivity.
Qed.

Lemma span_digits_decimal s :
  all_chars is_decimal_char s = true ->
  forall prev, span_digits prev s = (s, EmptyString).
Proof.
  induction s as [|c s IH]; simpl; [reflexivity|].
  intros [Hc Hs]%andb_true_iff prev. rewrite Hc, (IH Hs). reflexivity.
Qed.

(** [int] of a run of decimal digits within the interpreter's limit. *)
Lemma py_int_decimal s :
  isdecimal s = true -> (String.length s <= int_max_str_digits)%nat ->
  py_int s = Some (Z.of_N (digits_value 0 s)).
Proof.
  destruct s as [|c s]; [discriminate|]. unfold isdecimal. intros Hd Hlen.
  unfold py_int, strip. rewrite (lstrip_decimal _ Hd), (rstrip_decimal _ Hd).
  simpl in Hd. apply andb_true_iff in Hd as [Hc Hs].
  rewrite (decimal_not_sign _ Hc).
  rewrite span_digits_decimal by (simpl; rewrite Hc, Hs; reflexivity).
  destruct (int_max_str_digits <? String.length (String c s))%nat eqn:E; [|reflexivity].
  apply Nat.ltb_lt in E. lia.
Qed.

(** [float] of a minus sign followed by a run of decimal digits. *)
Lemma py_float_negative s :
  isdecimal s = true ->
  py_float (String "-" s) = Some (FDec true (digits_value 0 s) 0).
Proof.
  destruct s as [|c s]; [discriminate|]. unfold isdecimal. intros Hd.
  assert (Hstrip : strip (String "-" (String c s)) = String "-" (String c s)).
  { unfold strip. change (lstrip (String "-" (String c s))) with (String "-" (String c s)).
    apply rstrip_no_space. change (all_chars (fun c0 => negb (is_space_char c0)) (String c s) = true).
    revert Hd. apply all_chars_impl. intros c0 H0. rewrite (decimal_not_space _ H0). reflexivity. }
  unfold py_float. rewrite Hstrip.
  change (take_sign (String "-" (String c s))) with (true, String c s).
  cbv beta iota zeta.
  pose proof Hd as Hd'. simpl in Hd'. apply andb_true_iff in Hd' as [Hc Hs].
  destruct (decimal_not_name c Hc s) as [-> ->].
  unfold floatnumber. rewrite (span_digits_decimal _ Hd). reflexivity.
Qed.

Lemma isdigit_negative s : isdigit (String "-" s) = false.
Proof. reflexivity. Qed.

End PyStrFacts.

(* ===================================================================== *)
(** ** The parameter normaliser *)
(* ===================================================================== *)

(** A converted value is left alone by a second conversion. *)
Lemma convert_value_fixed v v' : convert_value v = inr v' -> convert_value v' = inr v'.
Proof.
  destruct v; simpl; try (intros [= <-]; reflexivity).
  destruct (PyStr.isdigit s) eqn:Hd.
  - destruct (PyStr.py_int s); [intros [= <-]; reflexivity | discriminate].
  - destruct (PyFloat.py_float s) eqn:Hf; intros [= <-]; [reflexivity|].
    simpl. rewrite Hd, Hf. reflexivity.
Qed.

(** The strings a conversion leaves are those neither test accepts. *)
Lemma convert_value_str v s :
  convert_value v = inr (PStr s) ->
  v = PStr s /\ PyStr.isdigit s = false /\ PyFloat.py_float s = None.
Proof.
  destruct v; simpl; try discriminate.
  destruct (PyStr.isdigit s0) eqn:Hd.
  - destruct (PyStr.py_int s0); discriminate.
  - destruct (PyFloat.py_float s0) eqn:Hf; [discriminate|]. intros [= <-]. auto.
Qed.

(** Only [int] can make a conversion raise. *)
Lemma convert_value_raises v e :
  convert_value v = inl e ->
  e = ValueError "invalid literal for int() with base 10"
  /\ exists s, v = PStr s /\ PyStr.isdigit s = true /\ PyStr.py_int s = None.
Proof.
  destruct v; simpl; try discriminate.
  destruct (PyStr.isdigit s) eqn:Hd.
  - destruct (PyStr.py_int s) eqn:Hi; [discriminate|]. intros [= <-]. eauto.
  - destruct (PyFloat.py_float s); discriminate.
Qed.

Lemma convert_loop_run p w :
  (exists q, convert_loop p w = (inr q, w, []) /\ converted_by p q)
  \/ (exists e k v, convert_loop p w = (inl e, w, [])
                    /\ p !! k = Some v /\ convert_value v = inl e).
Proof.
  revert w. unfold convert_loop.
  apply (map_fold_weak_ind
           (fun (r : M (gmap string pyval)) (m : gmap string pyval) =>
              forall w,
                (exists q, r w = (inr q, w, []) /\ converted_by m q)
                \/ (exists e k v, r w = (inl e, w, [])
                                  /\ m !! k = Some v /\ convert_value v = inl e))).
  - intros w. left. exists ∅. split; [reflexivity|].
    intros k. rewrite !lookup_empty. reflexivity.
  - intros i x m r Hi IH w.
    unfold mbind, mret, M_bind, M_ret, bind, ret, lift.
    destruct (IH w) as [(q & -> & Hq) | (e & k & v & -> & Hk & Hv)].
    + destruct (convert_value x) as [e|v] eqn:Hx.
      * right. exists e, i, x. rewrite lookup_insert_eq. auto.
      * left. exists (<[i:=v]> q). split; [reflexivity|].
        intros k. destruct (decide (i = k)) as [->|Hne].
        -- rewrite !lookup_insert_eq. simpl. rewrite Hx. reflexivity.
        -- rewrite !lookup_insert_ne by done. apply Hq.
    + right. exists e, k, v. split; [reflexivity|]. split; [|done].
      rewrite lookup_insert_ne; [done|]. intros ->. congruence.
Qed.

(** What a call of [convert_params] does: it leaves the state alone, and
    either returns the converted mapping and logs once, or raises the
    [ValueError] of some value and logs nothing. *)
Lemma convert_params_run p w :
  (exists q, convert_params p w = (inr q, w, [conversion_log]) /\ converted_by p q)
  \/ (exists e k v, convert_params p w = (inl e, w, [])
                    /\ p !! k = Some v /\ convert_value v = inl e).
Proof.
  unfold convert_params. fold (convert_loop p).
  unfold mbind, M_bind, bind.
  destruct (convert_loop_run p w) as [(q & -> & Hq) | (e & k & v & -> & Hk & Hv)].
  - left. exists q. split; [reflexivity | done].
  - right. exists e, k, v. done.
Qed.

Lemma converted_by_dom p q : converted_by p q -> dom q = dom p.
Proof.
  intros H. apply set_eq. intros k. rewrite !elem_of_dom. specialize (H k).
  destruct (p !! k), (q !! k); simpl in *; try discriminate;
    split; intros [? ?]; eauto; discriminate.
Qed.

Lemma converted_by_lookup p q k v' :
  converted_by p q -> q !! k = Some v' ->
  exists v, p !! k = Some v /\ convert_value v = inr v'.
Proof.
  intros H Hq. specialize (H k). rewrite Hq in H. simpl in H.
  destruct (p !! k) as [v|]; [|discriminate]. simpl in H. exists v. split; congruence.
Qed.

Lemma converted_by_value p q k v :
  converted_by p q -> p !! k = Some v ->
  exists v', q !! k = Some v' /\ convert_value v = inr v'.
Proof.
  intros H Hp. specialize (H k). rewrite Hp in H.
  destruct (q !! k) as [v'|]; [|discriminate]. exists v'. split; [done|].
  change (Some (inr v') = Some (convert_value v)) in H. congruence.
Qed.

Lemma converted_by_fixed p q q' :
  converted_by p q -> converted_by q q' -> q' = q.
Proof.
  intros Hq Hq'. apply map_eq. intros k. specialize (Hq' k).
  destruct (q !! k) as [v'|] eqn:Hk.
  - destruct (converted_by_lookup _ _ _ _ Hq Hk) as (v & _ & Hv).
    apply convert_value_fixed in Hv. simpl in Hq'. rewrite Hv in Hq'.
    destruct (q' !! k); simpl in Hq'; congruence.
  - destruct (q' !! k); simpl in Hq'; [discriminate | reflexivity].
Qed.

(** Where no string value holds a superscript digit or more digits than
    [int] accepts, the normaliser returns a mapping of the same keys: a
    string of decimal digits becomes the integer it denotes, another string
    the float it reads as or else itself, and any value that is not a
    string is returned as it is. *)
Lemma convert_params_on_decimal (p : gmap string pyval) (w : world) :
  (forall k s, p !! k = Some (PStr s) -> PyStr.isdigit s = true ->
               PyStr.isdecimal s = true
               /\ (String.length s <= PyStr.int_max_str_digits)%nat) ->
  exists q,
    convert_params p w = (inr q, w, [conversion_log])
    /\ dom q = dom p
    /\ forall k v, p !! k = Some v ->
         q !! k = Some (match v with
                        | PStr s =>
                            if PyStr.isdecimal s
                            then PInt (Z.of_N (PyStr.digits_value 0 s))
                            else match PyFloat.py_float s with
                                 | Some f => PFloat f
                                 | None => PStr s
                                 end
                        | _ => v
                        end).
Proof.
  intros H.
  destruct (convert_params_run p w) as [(q & Hrun & Hq) | (e & k & v & _ & Hk & Hv)].
  - exists q. split; [done|]. split; [by apply converted_by_dom|].
    intros k v Hk. destruct (converted_by_value _ _ _ _ Hq Hk) as (v' & -> & Hv).
    f_equal. destruct v; simpl in Hv; try congruence.
    destruct (PyStr.isdigit s) eqn:Hd.
    + destruct (H k s Hk Hd) as [Hdec Hlen].
      rewrite Hdec. rewrite (PyStrFacts.py_int_decimal s Hdec Hlen) in Hv. congruence.
    + destruct (PyStr.isdecimal s) eqn:Hdec.
      * apply PyStrFacts.isdecimal_isdigit in Hdec. congruence.
      * destruct (PyFloat.py_float s); congruence.
  - apply convert_value_raises in Hv as (_ & s & -> & Hd & Hi).
    destruct (H k s Hk Hd) as [Hdec Hlen].
    rewrite (PyStrFacts.py_int_decimal s Hdec Hlen) in Hi. discriminate.
Qed.

(** C2, at the input [{"k": "²"}]: the superscript two is not a
    decimal digit and [float] rejects it, so the value should be kept as
    the string it is; but [str.isdigit] accepts it, [int] is called on it,
    and [convert_params] raises [ValueError] instead of returning a
    mapping. *)
Theorem convert_params_superscript_raises (w : world) :
  PyStr.isdecimal superscript_two = false
  /\ PyFloat.py_float superscript_two = None
  /\ PyStr.isdigit superscript_two = true
  /\ convert_params {["k" := PStr superscript_two]} w
     = (inl (ValueError "invalid literal for int() with base 10"), w, []).
Proof. repeat split; vm_compute; reflexivity. Qed.

(** C6: ["-5"] is normalised to the float -5.0 and not to an integer; so
    is every string made of a minus sign and decimal digits, because
    [str.isdigit] rejects the sign and [float] reads the text, while the
    digits alone become an integer. *)
Theorem negative_integer_string_is_float :
  (forall w, outcome (convert_params {["x" := PStr "-5"]} w)
             = inr {["x" := PFloat (FDec true 5 0)]})
  /\ (forall d, PyStr.isdecimal d = true ->
        PyStr.isdigit (String "-" d) = false
        /\ convert_value (PStr (String "-" d))
           = inr (PFloat (FDec true (PyStr.digits_value 0 d) 0))
        /\ ((String.length d <= PyStr.int_max_str_digits)%nat ->
            convert_value (PStr d) = inr (PInt (Z.of_N (PyStr.digits_value 0 d)))))
  /\ (forall (p q : gmap string pyval) k d w,
        PyStr.isdecimal d = true ->
        p !! k = Some (PStr (String "-" d)) ->
        outcome (convert_params p w) = inr q ->
        q !! k = Some (PFloat (FDec true (PyStr.digits_value 0 d) 0))).
Proof.
  assert (Hneg : forall d, PyStr.isdecimal d = true ->
            convert_value (PStr (String "-" d))
            = inr (PFloat (FDec true (PyStr.digits_value 0 d) 0))).
  { intros d Hd. unfold convert_value.
    rewrite PyStrFacts.isdigit_negative, (PyStrFacts.py_float_negative d Hd). reflexivity. }
  split; [|split].
  - intros w. vm_compute. reflexivity.
  - intros d Hd. split; [apply PyStrFacts.isdigit_negative|]. split; [by apply Hneg|].
    intros Hlen. unfold convert_value.
    rewrite (PyStrFacts.isdecimal_isdigit d Hd), (PyStrFacts.py_int_decimal d Hd Hlen).
    reflexivity.
  - intros p q k d w Hd Hk Hout.
    destruct (convert_params_run p w) as [(q' & Hrun & Hq) | (e & k' & v & Hrun & _)];
      rewrite Hrun in Hout; [|discriminate].
    injection Hout as <-.
    destruct (converted_by_value _ _ _ _ Hq Hk) as (v' & -> & Hv').
    rewrite (Hneg d Hd) in Hv'. congruence.
Qed.

Lemma negative_integer_string_is_float_witness :
  PyStr.isdecimal "5" = true
  /\ convert_value (PStr "-5") = inr (PFloat (FDec true 5 0))
  /\ convert_value (PStr "5") = inr (PInt 5).
Proof.
  pose proof (proj1 (proj2 negative_integer_string_is_float) "5" eq_refl) as (_ & Hf & Hi).
  split; [reflexivity|]. split; [exact Hf|]. apply Hi. unfold PyStr.int_max_str_digits. simpl. lia.
Defined.

(** C10: the normaliser is idempotent.  When [convert_params p] returns
    [q], every value of [q] is left as it is by the conversion (a string
    of [q] is one that neither [str.isdigit] nor [float] accepts), and
    [convert_params q] returns [q]. *)
Theorem convert_params_idempotent (p q : gmap string pyval) (w : world) :
  outcome (convert_params p w) = inr q ->
  (forall w', outcome (convert_params q w') = inr q)
  /\ (forall k v, q !! k = Some v -> convert_value v = inr v)
  /\ (forall k s, q !! k = Some (PStr s) ->
        PyStr.isdigit s = false /\ PyFloat.py_float s = None).
Proof.
  intros Hout.
  destruct (convert_params_run p w) as [(q0 & Hrun & Hq) | (e & k & v & Hrun & _)];
    rewrite Hrun in Hout; [|discriminate].
  injection Hout as <-.
  assert (Hfix : forall k v, q0 !! k = Some v -> convert_value v = inr v).
  { intros k v Hk. destruct (converted_by_lookup _ _ _ _ Hq Hk) as (v0 & _ & Hv0).
    by apply convert_value_fixed in Hv0. }
  split; [|split].
  - intros w'.
    destruct (convert_params_run q0 w') as [(q' & Hrun' & Hq') | (e & k & v & _ & Hk & Hv)].
    + rewrite Hrun'. unfold outcome. simpl. f_equal. by apply (converted_by_fixed p).
    + rewrite (Hfix k v Hk) in Hv. discriminate.
  - exact Hfix.
  - intros k s Hk. destruct (converted_by_lookup _ _ _ _ Hq Hk) as (v0 & _ & Hv0).
    apply convert_value_str in Hv0. tauto.
Qed.

Lemma convert_params_idempotent_witness :
  outcome (convert_params Stub.params4 Stub.w0) = inr Stub.converted4
  /\ outcome (convert_params Stub.converted4 Stub.w0) = inr Stub.converted4.
Proof.
  assert (H : outcome (convert_params Stub.params4 Stub.w0) = inr Stub.converted4)
    by (vm_compute; reflexivity).
  split; [exact H|].
  exact (proj1 (convert_params_idempotent Stub.params4 Stub.converted4 Stub.w0 H) Stub.w0).
Defined.

(* ===================================================================== *)
(** ** Metrics and the training orchestrator *)
(* ===================================================================== *)

Lemma is_training_metrics_log a p r : is_training (metrics_log a p r) = false.
Proof. destruct a, p, r; reflexivity. Qed.

Lemma session_step_metrics_log s a p r : session_step s (metrics_log a p r) = s.
Proof. destruct a, p, r; reflexivity. Qed.

Lemma computed_metrics_dom a p r : dom (computed_metrics a p r) = metric_names.
Proof.
  unfold computed_metrics, default_metrics, metric_names.
  destruct a, p, r; rewrite !dom_insert_L, dom_empty_L; set_solver.
Qed.

Lemma lookup_row_id k c r : lookup_row k c = Some r -> id r = k.
Proof.
  unfold lookup_row. intros H. apply find_some in H as [_ H].
  by apply String.eqb_eq in H.
Qed.

Lemma lookup_delete_row k k' c :
  lookup_row k' (delete_row k c) = if String.eqb k k' then None else lookup_row k' c.
Proof.
  unfold lookup_row, delete_row. induction c as [|r c IH]; simpl.
  - by destruct (String.eqb k k').
  - destruct (String.eqb (id r) k) eqn:E1; simpl.
    + apply String.eqb_eq in E1. subst k. rewrite IH.
      destruct (String.eqb (id r) k'); reflexivity.
    + destruct (String.eqb (id r) k') eqn:E2; [|exact IH].
      apply String.eqb_eq in E2. subst k'. rewrite String.eqb_sym, E1. reflexivity.
Qed.

Lemma lookup_row_app k c r :
  lookup_row k (c ++ [r])
  = match lookup_row k c with
    | Some x => Some x
    | None => if String.eqb (id r) k then Some r else None
    end.
Proof.
  unfold lookup_row. induction c as [|r0 c IH]; simpl; [reflexivity|].
  destruct (String.eqb (id r0) k); [reflexivity | exact IH].
Qed.

Lemma Forall_delete_row (P : MLModel -> Prop) k c :
  Forall P c -> Forall P (delete_row k c).
Proof.
  unfold delete_row. induction 1 as [|r c Hr _ IH]; simpl; [constructor|].
  destruct (negb (String.eqb (id r) k)); [by constructor | done].
Qed.

Ltac unfold_m :=
  unfold mbind, mret, M_bind, M_ret, bind, ret, raise, lift, emit, gets, modify,
    try_except, attempt, log, level_enabled, abort, context_abort in *.

(* ===================================================================== *)
(** ** More on the normaliser *)
(* ===================================================================== *)

Module PyStrMore.
Import PyStr PyFloat.

Lemma digit_not_space c : is_digit_char c = true -> is_space_char c = false.
Proof. destruct c as [[] [] [] [] [] [] [] []]; try discriminate; reflexivity. Qed.

Lemma digit_not_sign c :
  is_digit_char c = true -> forall s, take_sign (String c s) = (false, String c s).
Proof. destruct c as [[] [] [] [] [] [] [] []]; try discriminate; reflexivity. Qed.

Lemma digit_not_underscore c : is_digit_char c = true -> (code c =? 95)%N = false.
Proof. destruct c as [[] [] [] [] [] [] [] []]; try discriminate; reflexivity. Qed.

Lemma strip_digits s : all_chars is_digit_char s = true -> strip s = s.
Proof.
  intros H. unfold strip.
  assert (Hl : lstrip s = s).
  { destruct s as [|c s]; simpl in *; [reflexivity|].
    apply andb_true_iff in H as [Hc _]. rewrite (digit_not_space _ Hc). reflexivity. }
  rewrite Hl. apply PyStrFacts.rstrip_no_space. revert H. apply PyStrFacts.all_chars_impl.
  intros c Hc. rewrite (digit_not_space _ Hc). reflexivity.
Qed.

(** A run of digits that holds a digit without decimal value is not read
    to its end. *)
Lemma span_digits_stops s :
  all_chars is_digit_char s = true -> all_chars is_decimal_char s = false ->
  forall prev, exists d c r, span_digits prev s = (d, String c r).
Proof.
  induction s as [|c s IH]; simpl; [discriminate|].
  intros [Hc Hs]%andb_true_iff Hdec prev.
  destruct (is_decimal_char c) eqn:Ec.
  - simpl in Hdec. destruct (IH Hs Hdec true) as (d & c' & r & ->). eauto.
  - rewrite (digit_not_underscore _ Hc). simpl. eauto.
Qed.

(** [int] on a string that [str.isdigit] accepts: it fails exactly on a
    digit without decimal value and beyond the interpreter's limit. *)
Lemma py_int_isdigit s :
  isdigit s = true ->
  py_int s = if isdecimal s && (String.length s <=? int_max_str_digits)%nat
             then Some (Z.of_N (digits_value 0 s)) else None.
Proof.
  intros Hd. destruct (isdecimal s) eqn:Hdec; simpl.
  - destruct (String.length s <=? int_max_str_digits)%nat eqn:Hlen.
    + apply PyStrFacts.py_int_decimal; [done|]. by apply Nat.leb_le.
    + apply Nat.leb_gt in Hlen.
      destruct s as [|c s]; [discriminate|]. unfold isdecimal in Hdec.
      unfold py_int, strip.
      rewrite (PyStrFacts.lstrip_decimal _ Hdec), (PyStrFacts.rstrip_decimal _ Hdec).
      pose proof Hdec as Hdec'. simpl in Hdec'. apply andb_true_iff in Hdec' as [Hc _].
      rewrite (PyStrFacts.decimal_not_sign _ Hc), (PyStrFacts.span_digits_decimal _ Hdec).
      apply Nat.ltb_lt in Hlen. rewrite Hlen. reflexivity.
  - destruct s as [|c s]; [discriminate|]. unfold isdigit in Hd. unfold isdecimal in Hdec.
    unfold py_int. rewrite (strip_digits _ Hd).
    pose proof Hd as Hd'. simpl in Hd'. apply andb_true_iff in Hd' as [Hc _].
    rewrite (digit_not_sign _ Hc).
    destruct (span_digits_stops _ Hd Hdec false) as (d & c' & r & ->).
    destruct d; reflexivity.
Qed.



End PyStrMore.

(** X1: the normaliser raises exactly when some value is a string that
    [str.isdigit] accepts and that holds a digit without decimal value
    (a superscript) or more digits than [int] reads; what it raises is
    then [ValueError], and it has changed nothing and logged nothing. *)
Theorem convert_params_raises_iff (p : gmap string pyval) (w : world) :
  ((exists e, outcome (convert_params p w) = inl e)
   <-> exists k s, p !! k = Some (PStr s)
                   /\ PyStr.isdigit s = true
                   /\ (PyStr.isdecimal s = false
                       \/ (PyStr.int_max_str_digits < String.length s)%nat))
  /\ (forall e, outcome (convert_params p w) = inl e ->
        convert_params p w
        = (inl (ValueError "invalid literal for int() with base 10"), w, [])).
Proof.
  assert (Hfail : forall s, PyStr.isdigit s = true ->
            (PyStr.py_int s = None
             <-> PyStr.isdecimal s = false
                 \/ (PyStr.int_max_str_digits < String.length s)%nat)).
  { intros s Hd. rewrite (PyStrMore.py_int_isdigit s Hd).
    destruct (PyStr.isdecimal s); simpl.
    - destruct (String.length s <=? PyStr.int_max_str_digits)%nat eqn:E.
      + apply Nat.leb_le in E. split; [discriminate|]. intros [?|?]; [discriminate|lia].
      + apply Nat.leb_gt in E. split; auto.
    - split; auto. }
  destruct (convert_params_run p w) as [(q & Hrun & Hq) | (e & k & v & Hrun & Hk & Hv)].
  - rewrite Hrun. unfold outcome. simpl. split; [|intros e [=]]. split.
    + intros [e [=]].
    + intros (k & s & Hk & Hd & Hbad). exfalso.
      destruct (converted_by_value _ _ _ _ Hq Hk) as (v' & _ & Hv').
      simpl in Hv'. rewrite Hd in Hv'. apply (Hfail s Hd) in Hbad. rewrite Hbad in Hv'.
      discriminate.
  - apply convert_value_raises in Hv as (-> & s & -> & Hd & Hi).
    rewrite Hrun. unfold outcome. simpl. split; [|intros e _; reflexivity]. split.
    + intros _. exists k, s. split; [done|]. split; [done|]. by apply Hfail.
    + intros _. eauto.
Qed.



(* ===================================================================== *)
(** ** More on the catalog table *)
(* ===================================================================== *)

Lemma lookup_row_None k c : lookup_row k c = None <-> ~ In k (row_ids c).
Proof.
  unfold lookup_row, row_ids. induction c as [|r c IH]; simpl; [tauto|].
  destruct (String.eqb (id r) k) eqn:E.
  - apply String.eqb_eq in E. split; [discriminate | tauto].
  - apply String.eqb_neq in E. rewrite IH. tauto.
Qed.

Lemma row_ids_delete_row k c k' :
  In k' (row_ids (delete_row k c)) <-> In k' (row_ids c) /\ k' <> k.
Proof.
  unfold row_ids, delete_row. induction c as [|r c IH]; simpl; [tauto|].
  destruct (String.eqb (id r) k) eqn:E; simpl.
  - apply String.eqb_eq in E. rewrite IH. split; [tauto|].
    intros [[Heq|H] Hne]; [congruence | tauto].
  - apply String.eqb_neq in E. rewrite IH. split; [|tauto].
    intros [<-|H]; tauto.
Qed.

Lemma NoDup_delete_row k c : NoDup (row_ids c) -> NoDup (row_ids (delete_row k c)).
Proof.
  induction c as [|r c IH]; [done|].
  change (row_ids (r :: c)) with (id r :: row_ids c).
  intros [Hr Hc]%NoDup_cons.
  unfold delete_row; simpl; fold (delete_row k c).
  destruct (negb (String.eqb (id r) k)); [|auto].
  change (NoDup (id r :: row_ids (delete_row k c))). apply NoDup_cons. split; [|auto].
  intros H%list_elem_of_In. apply Hr, list_elem_of_In.
  apply row_ids_delete_row in H. tauto.
Qed.

Lemma NoDup_add_row c r :
  NoDup (row_ids c) -> lookup_row (id r) c = None -> NoDup (row_ids (c ++ [r])).
Proof.
  intros Hc Hr. apply lookup_row_None in Hr. unfold row_ids in *. rewrite map_app. simpl.
  apply NoDup_app. split; [done|]. split; [|apply NoDup_singleton].
  intros k Hk Hk'. apply list_elem_of_In in Hk. apply list_elem_of_singleton in Hk'.
  subst k. done.
Qed.

Lemma to_dict_run r w : to_dict r w = (inr (view_of r), w, []).
Proof. reflexivity. Qed.

Lemma for_each_to_dict c w :
  for_each to_dict c w = (inr (map view_of c), w, []).
Proof.
  induction c as [|r c IH]; [reflexivity|].
  simpl. unfold mbind at 1. unfold M_bind at 1. unfold bind at 1.
  rewrite to_dict_run.
  unfold mbind at 1. unfold M_bind at 1. unfold bind at 1.
  rewrite IH. reflexivity.
Qed.

Section ServiceFacts.

Context (estimator : Type)
        (construct : model_class -> gmap string pyval -> result estimator)
        (fit : estimator -> list (list pyval) -> list pyval -> result estimator)
        (predict : estimator -> list (list pyval) -> result (list pyval))
        (accuracy_score precision_score recall_score :
           list pyval -> list pyval -> result pyfloat)
        (new_run_id : list string -> string)
        (mlflow_fault : mlflow_call -> option string -> list string -> option exn).

Abbreviation metrics_of yt yp :=
  (computed_metrics (accuracy_score yt yp) (precision_score yt yp) (recall_score yt yp)).
Abbreviation calc := (calculate_metrics accuracy_score precision_score recall_score).
Abbreviation train :=
  (train_and_log_model estimator construct fit predict
                       accuracy_score precision_score recall_score
                       new_run_id mlflow_fault).

(** [calculate_metrics] always returns: the mapping of the three scores,
    or the default mapping as soon as one scorer raises; it logs once and
    leaves the state alone. *)
Lemma calculate_metrics_run yt yp w :
  calc yt yp w
  = (inr (metrics_of yt yp), w,
     [metrics_log (accuracy_score yt yp) (precision_score yt yp) (recall_score yt yp)]).
Proof.
  unfold calculate_metrics, computed_metrics, metrics_log. unfold_m.
  destruct (accuracy_score yt yp), (precision_score yt yp), (recall_score yt yp);
    reflexivity.
Qed.

Arguments calculate_metrics : simpl never.
Arguments convert_params : simpl never.

Ltac unfold_tracking :=
  unfold with_start_run, log_param, log_params, log_metrics, log_model,
    get_or_start_run, start_run, end_run, active_run, fault,
    set_active, add_run in *.

Ltac train_step :=
  match goal with
  | |- context [convert_params ?p ?w] =>
      destruct (convert_params_run p w) as [(?q & -> & ?Hq) | (?e & ?k & ?v & -> & ?Hk & ?Hv)]
  | |- context [calculate_metrics _ _ _ ?yt ?yp ?w] =>
      rewrite (calculate_metrics_run yt yp w)
  | |- context [match mlflow_fault ?c ?a ?r with _ => _ end] =>
      destruct (mlflow_fault c a r) eqn:?
  | |- context [match AVAILABLE_MODELS !! ?k with _ => _ end] =>
      destruct (AVAILABLE_MODELS !! k) eqn:?
  | |- context [match construct ?c ?p with _ => _ end] =>
      destruct (construct c p) eqn:?
  | |- context [match fit ?m ?x ?y with _ => _ end] =>
      destruct (fit m x y) eqn:?
  | |- context [match predict ?m ?x with _ => _ end] =>
      destruct (predict m x) eqn:?
  end; cbn.

Ltac train_exec :=
  unfold train_and_log_model; unfold_tracking; do 3 unfold_m; cbn;
  repeat train_step;
  rewrite ?is_training_metrics_log, ?session_step_metrics_log.

Lemma train_frame mt p X y w :
  let x := train mt p X y w in
  w_catalog (final x) = w_catalog w
  /\ w_session (final x) = w_session w
  /\ w_clock (final x) = w_clock w
  /\ trains_outside_session (w_active w) (events x) = true
  /\ (forall r0, w_active w = Some r0 ->
        exists t, events x = stale_run_warning :: EvEndRun r0 FINISHED :: t).
Proof.
  destruct w as [[r0|] runs c s clk]; train_exec.
  all: repeat split; try reflexivity.
  all: try (intros ? [= <-]; eexists; reflexivity).
  all: try (intros ? [=]).
Qed.

Lemma train_returns mt p X y w rid m uri w' t :
  train mt p X y w = (inr (rid, m, uri), w', t) ->
  rid = new_run_id (w_runs w)
  /\ uri = "runs:/" +:+ rid +:+ "/model"
  /\ (exists yp, m = metrics_of y yp)
  /\ In (EvStartRun rid) t /\ In (EvEndRun rid FINISHED) t
  /\ w_active w' = None
  /\ is_Some (AVAILABLE_MODELS !! mt).
Proof.
  destruct w as [[r0|] runs c s clk]; train_exec.
  all: try discriminate.
  all: intros [= <- <- <- <- <-].
  all: repeat split; eauto 20 using in_eq, in_cons.
Qed.


Lemma train_unregistered mt p X y w :
  AVAILABLE_MODELS !! mt = None ->
  let x := train mt p X y w in
  (exists e, outcome x = inl e)
  /\ Forall (fun ev => is_training ev = false) (events x)
  /\ w_runs (final x) = w_runs w
  /\ ((forall k v e, p !! k = Some v -> convert_value v <> inl e) ->
      (forall r0, w_active w = Some r0 -> mlflow_fault CEndRun None (w_runs w) = None) ->
      outcome x = inl (KeyError mt)).
Proof.
  intros Hmt. destruct w as [[r0|] runs c s clk]; train_exec.
  all: try congruence.
  all: repeat split; eauto; try (repeat constructor).
  all: try (intros Hp Hf; try (exfalso; eapply Hp; eassumption);
            try (specialize (Hf _ eq_refl); congruence); reflexivity).
Qed.

Arguments train_and_log_model : simpl never.

(* ===================================================================== *)
(** ** The handlers *)
(* ===================================================================== *)

Abbreviation retrain_post :=
  (ModelRetrain_post estimator construct fit predict
                     accuracy_score precision_score recall_score
                     new_run_id mlflow_fault).

Arguments lookup_row : simpl never.
Arguments delete_row : simpl never.

Ltac handler_exec :=
  unfold query_first, create_model_record, db_add, db_delete, db_commit,
    set_session, set_catalog;
  do 3 unfold_m; cbn.

Lemma retrain_post_run model_id X y w record :
  lookup_row model_id (w_catalog w) = Some record ->
  w_session w = [] ->
  match outcome (train (model_type record) (params record) X y w) with
  | inl e =>
      outcome (retrain_post model_id X y w)
      = inl (HTTPException 500 "Retraining failed: {str(e)}" (Some e))
      /\ w_catalog (final (retrain_post model_id X y w)) = w_catalog w
  | inr (new_id, m, uri) =>
      lookup_row new_id (w_catalog w) = None ->
      outcome (retrain_post model_id X y w) = inr (new_id, m, 200%Z)
      /\ w_catalog (final (retrain_post model_id X y w))
         = (delete_row model_id (w_catalog w)
             ++ [mkMLModel new_id (model_type record) (params record) uri (w_clock w) m])%list
  end.
Proof.
  intros Hrec Hs.
  pose proof (train_frame (model_type record) (params record) X y w) as (Hc & Hs' & Hk & _).
  unfold ModelRetrain_post. handler_exec. rewrite Hrec. cbn.
  destruct (train (model_type record) (params record) X y w) as [[[e|[[rid m] uri]] w1] t];
    cbn in *.
  - split; [reflexivity | exact Hc].
  - intros Hfresh. rewrite Hs', Hs, Hc, Hk. cbn.
    rewrite (lookup_row_id _ _ _ Hrec), lookup_delete_row, Hfresh.
    destruct (String.eqb model_id rid); cbn; split; reflexivity.
Qed.

Abbreviation retrain_rpc :=
  (RetrainModel estimator construct fit predict
                accuracy_score precision_score recall_score
                new_run_id mlflow_fault).
Abbreviation train_post :=
  (TrainModel_post estimator construct fit predict
                   accuracy_score precision_score recall_score
                   new_run_id mlflow_fault).
Abbreviation train_rpc :=
  (TrainModel estimator construct fit predict
              accuracy_score precision_score recall_score
              new_run_id mlflow_fault).
Abbreviation serve_req :=
  (serve estimator construct fit predict
         accuracy_score precision_score recall_score
         new_run_id mlflow_fault).
Abbreviation serve_reqs :=
  (serve_all estimator construct fit predict
             accuracy_score precision_score recall_score
             new_run_id mlflow_fault).

Lemma retrain_rpc_run model_id X y w record :
  lookup_row model_id (w_catalog w) = Some record ->
  w_session w = [] ->
  match outcome (train (model_type record) (params record) X y w) with
  | inl e =>
      outcome (retrain_rpc model_id X y w)
      = inl (RpcAbort INTERNAL "Retraining failed: {str(e)}" (Some e))
      /\ w_catalog (final (retrain_rpc model_id X y w)) = w_catalog w
  | inr (new_id, m, uri) =>
      lookup_row new_id (w_catalog w) = None ->
      outcome (retrain_rpc model_id X y w) = inr m
      /\ w_catalog (final (retrain_rpc model_id X y w))
         = (delete_row model_id (w_catalog w)
             ++ [mkMLModel new_id (model_type record) (params record) uri (w_clock w) m])%list
  end.
Proof.
  intros Hrec Hs.
  pose proof (train_frame (model_type record) (params record) X y w) as (Hc & Hs' & Hk & _).
  unfold RetrainModel. handler_exec. rewrite Hrec. cbn.
  destruct (train (model_type record) (params record) X y w) as [[[e|[[rid m] uri]] w1] t];
    cbn in *.
  - split; [reflexivity | exact Hc].
  - intros Hfresh. rewrite Hs', Hs, Hc, Hk. cbn.
    rewrite (lookup_row_id _ _ _ Hrec), lookup_delete_row, Hfresh.
    destruct (String.eqb model_id rid); cbn; split; reflexivity.
Qed.

Lemma train_post_run mt p X y w :
  w_session w = [] ->
  match AVAILABLE_MODELS !! mt with
  | None =>
      outcome (train_post mt p X y w)
      = inl (HTTPException 400 "Unsupported model type" None)
      /\ final (train_post mt p X y w) = w
      /\ Forall (fun ev => exists lg lvl text, ev = EvLog lg lvl text)
                (events (train_post mt p X y w))
  | Some _ =>
      match outcome (train mt p X y w) with
      | inl e =>
          outcome (train_post mt p X y w)
          = inl (HTTPException 500 "Training failed: {str(e)}" (Some e))
          /\ w_catalog (final (train_post mt p X y w)) = w_catalog w
      | inr (run_id, m, uri) =>
          lookup_row run_id (w_catalog w) = None ->
          outcome (train_post mt p X y w) = inr (run_id, m, 201%Z)
          /\ w_catalog (final (train_post mt p X y w))
             = (w_catalog w ++ [mkMLModel run_id mt p uri (w_clock w) m])%list
      end
  end.
Proof.
  intros Hs.
  pose proof (train_frame mt p X y w) as (Hc & Hs' & Hk & _).
  unfold TrainModel_post. handler_exec.
  destruct (AVAILABLE_MODELS !! mt); cbn.
  - destruct (train mt p X y w) as [[[e|[[rid m] uri]] w1] t]; cbn in *.
    + split; [reflexivity | exact Hc].
    + intros Hfresh. rewrite Hs', Hs, Hc, Hk. cbn. rewrite Hfresh. cbn.
      split; reflexivity.
  - split; [reflexivity|]. split; [reflexivity|]. repeat constructor; eauto.
Qed.

Lemma train_rpc_run mt rp X y w :
  w_session w = [] ->
  match AVAILABLE_MODELS !! mt with
  | None =>
      outcome (train_rpc mt rp X y w)
      = inl (RpcAbort INVALID_ARGUMENT "Unsupported model type" None)
      /\ final (train_rpc mt rp X y w) = w
      /\ Forall (fun ev => exists lg lvl text, ev = EvLog lg lvl text)
                (events (train_rpc mt rp X y w))
  | Some _ =>
      match outcome (train mt (PStr <$> rp) X y w) with
      | inl e =>
          outcome (train_rpc mt rp X y w)
          = inl (RpcAbort INTERNAL "Training failed: {str(e)}" (Some e))
          /\ w_catalog (final (train_rpc mt rp X y w)) = w_catalog w
      | inr (run_id, m, uri) =>
          lookup_row run_id (w_catalog w) = None ->
          outcome (train_rpc mt rp X y w) = inr (run_id, m)
          /\ w_catalog (final (train_rpc mt rp X y w))
             = (w_catalog w ++ [mkMLModel run_id mt (PStr <$> rp) uri (w_clock w) m])%list
      end
  end.
Proof.
  intros Hs.
  pose proof (train_frame mt (PStr <$> rp) X y w) as (Hc & Hs' & Hk & _).
  unfold TrainModel. handler_exec.
  destruct (AVAILABLE_MODELS !! mt); cbn.
  - destruct (train mt (PStr <$> rp) X y w) as [[[e|[[rid m] uri]] w1] t]; cbn in *.
    + split; [reflexivity | exact Hc].
    + intros Hfresh. rewrite Hs', Hs, Hc, Hk. cbn. rewrite Hfresh. cbn.
      split; reflexivity.
  - split; [reflexivity|]. split; [reflexivity|]. repeat constructor; eauto.
Qed.

Ltac split_train :=
  match goal with
  | |- context [train_and_log_model _ _ _ _ _ _ _ _ _ ?mt ?p ?X ?y ?w'] =>
      let Hc := fresh "Hc" in
      let Hs := fresh "Hs" in
      let Hk := fresh "Hk" in
      let Hret := fresh "Hret" in
      pose proof (train_frame mt p X y w') as (Hc & Hs & Hk & _);
      pose proof (train_returns mt p X y w') as Hret;
      destruct (train mt p X y w') as [[[?e|[[?rid ?m] ?uri]] ?w1] ?t];
      cbn in Hc, Hs, Hk;
      [clear Hret | specialize (Hret _ _ _ _ _ eq_refl) as (_ & _ & (?yp & ->) & _)];
      cbn; rewrite ?Hc, ?Hs, ?Hk; cbn
  end.

Lemma serve_catalog (P : MLModel -> Prop) r w :
  (forall rid mt p uri clk y yp, P (mkMLModel rid mt p uri clk (metrics_of y yp))) ->
  Forall P (w_catalog w) -> Forall P (w_catalog (final (serve_req r w))).
Proof.
  intros Hnew Hall.
  destruct r; unfold serve, TrainModel_post, ModelById_delete, ModelRetrain_post,
    TrainModel, DeleteModel, RetrainModel; handler_exec.
  all: repeat match goal with
         | |- context [match AVAILABLE_MODELS !! ?k with _ => _ end] =>
             destruct (AVAILABLE_MODELS !! k); cbn
         | |- context [match lookup_row ?k ?c with _ => _ end] =>
             destruct (lookup_row k c); cbn
         end.
  all: try split_train.
  all: repeat match goal with
         | |- context [match lookup_row ?k ?c with _ => _ end] =>
             destruct (lookup_row k c); cbn
         end.
  all: try assumption.
  all: repeat (apply Forall_app; split); try (by apply Forall_delete_row);
    try assumption; try (constructor; [apply Hnew | constructor]).
Qed.

Lemma serve_all_catalog (P : MLModel -> Prop) rs w :
  (forall rid mt p uri clk y yp, P (mkMLModel rid mt p uri clk (metrics_of y yp))) ->
  Forall P (w_catalog w) -> Forall P (w_catalog (serve_reqs rs w)).
Proof.
  intros Hnew. revert w. induction rs as [|r rs IH]; intros w Hall; simpl; [done|].
  apply IH. by apply serve_catalog.
Qed.

(* ===================================================================== *)
(** ** The properties of the specification *)
(* ===================================================================== *)

Lemma computed_metrics_ok yt yp :
  (forall a b f, accuracy_score a b = inr f -> in_unit f = true) ->
  (forall a b f, precision_score a b = inr f -> in_unit f = true) ->
  (forall a b f, recall_score a b = inr f -> in_unit f = true) ->
  metrics_ok (metrics_of yt yp).
Proof.
  intros Ha Hp Hr. split; [apply computed_metrics_dom|].
  unfold computed_metrics, default_metrics.
  destruct (accuracy_score yt yp) eqn:Ea, (precision_score yt yp) eqn:Ep,
    (recall_score yt yp) eqn:Er; intros k f Hk;
    repeat (apply lookup_insert_Some in Hk as [[_ <-]|[_ Hk]]; [try reflexivity; eauto|]);
    rewrite lookup_empty in Hk; discriminate.
Qed.

Lemma computed_metrics_raised (a p r : result pyfloat) :
  (exists e, a = inl e) \/ (exists e, p = inl e) \/ (exists e, r = inl e) ->
  computed_metrics a p r = default_metrics.
Proof.
  intros [[e ->]|[[e ->]|[e ->]]]; unfold computed_metrics;
    repeat match goal with
      | |- context [match ?x with _ => _ end] => destruct x
      end; reflexivity.
Qed.

(** C1: a retrain of a record of the catalog, over REST and over RPC.
    When the training call raises, the handler raises in turn (status 500,
    INTERNAL) with that exception as its cause and the catalog table is
    what it was; when it returns a run identifier that the catalog does not
    hold yet, the table loses the old row and gains the new one, so the
    old identifier no longer resolves and the new one does. *)
Theorem retrain_replaces_or_keeps_record model_id X y w record :
  lookup_row model_id (w_catalog w) = Some record ->
  w_session w = [] ->
  match outcome (train (model_type record) (params record) X y w) with
  | inl e =>
      outcome (retrain_post model_id X y w)
      = inl (HTTPException 500 "Retraining failed: {str(e)}" (Some e))
      /\ w_catalog (final (retrain_post model_id X y w)) = w_catalog w
      /\ outcome (retrain_rpc model_id X y w)
         = inl (RpcAbort INTERNAL "Retraining failed: {str(e)}" (Some e))
      /\ w_catalog (final (retrain_rpc model_id X y w)) = w_catalog w
  | inr (new_id, m, uri) =>
      lookup_row new_id (w_catalog w) = None ->
      let new_record :=
        mkMLModel new_id (model_type record) (params record) uri (w_clock w) m in
      outcome (retrain_post model_id X y w) = inr (new_id, m, 200%Z)
      /\ outcome (retrain_rpc model_id X y w) = inr m
      /\ forall c,
           c = w_catalog (final (retrain_post model_id X y w))
           \/ c = w_catalog (final (retrain_rpc model_id X y w)) ->
           c = (delete_row model_id (w_catalog w) ++ [new_record])%list
           /\ lookup_row model_id c = None
           /\ lookup_row new_id c = Some new_record
  end.
Proof.
  intros Hrec Hs.
  pose proof (retrain_post_run model_id X y w record Hrec Hs) as Hrest.
  pose proof (retrain_rpc_run model_id X y w record Hrec Hs) as Hrpc.
  destruct (outcome (train (model_type record) (params record) X y w))
    as [e|[[new_id m] uri]].
  - tauto.
  - intros Hfresh new_record.
    destruct (Hrest Hfresh) as [Ho1 Hc1]. destruct (Hrpc Hfresh) as [Ho2 Hc2].
    split; [done|]. split; [done|].
    assert (Hne : String.eqb model_id new_id = false).
    { apply String.eqb_neq. intros ->. rewrite Hrec in Hfresh. discriminate. }
    intros c Hc.
    assert (Hc' : c = (delete_row model_id (w_catalog w) ++ [new_record])%list)
      by (destruct Hc as [-> | ->]; [exact Hc1 | exact Hc2]).
    split; [done|]. subst c. rewrite !lookup_row_app, !lookup_delete_row.
    rewrite String.eqb_refl, Hne, Hfresh. unfold new_record. cbn.
    rewrite String.eqb_refl, String.eqb_sym, Hne. done.
Qed.

(** C3: [calculate_metrics] never raises.  It always returns a mapping and
    leaves the state as it was; as soon as one of the three scorers raises
    (as on label lists of different lengths) the mapping returned is
    exactly accuracy 0.0, precision 0.0, recall 0.0. *)
Theorem calculate_metrics_never_raises yt yp w :
  (exists m, outcome (calc yt yp w) = inr m /\ final (calc yt yp w) = w)
  /\ ((exists e, accuracy_score yt yp = inl e)
      \/ (exists e, precision_score yt yp = inl e)
      \/ (exists e, recall_score yt yp = inl e) ->
      outcome (calc yt yp w) = inr default_metrics)
  /\ default_metrics
     = <["accuracy" := FDec false 0 0]>
         (<["precision" := FDec false 0 0]> (<["recall" := FDec false 0 0]> ∅)).
Proof.
  rewrite calculate_metrics_run. split; [eexists; split; reflexivity|].
  split; [|reflexivity].
  intros H. unfold outcome. cbn. f_equal. by apply computed_metrics_raised.
Qed.

(** C4: a model type that the registry does not hold is rejected.  The
    training call never returns for it and starts no estimator work; it
    raises the [KeyError] of the registry lookup unless an earlier step
    (closing a stale run, normalising the parameters) raised first.  Both
    transports test the registry before they call it and answer
    "Unsupported model type" (status 400, INVALID_ARGUMENT) with the state
    untouched.  The keys "random_forest" and "logistic_regression"
    resolve. *)
Theorem unregistered_model_type_is_rejected mt p rp X y w :
  AVAILABLE_MODELS !! mt = None ->
  ((exists e, outcome (train mt p X y w) = inl e)
   /\ Forall (fun ev => is_training ev = false) (events (train mt p X y w))
   /\ ((forall k v e, p !! k = Some v -> convert_value v <> inl e) ->
       (forall r0, w_active w = Some r0 ->
                   mlflow_fault CEndRun None (w_runs w) = None) ->
       outcome (train mt p X y w) = inl (KeyError mt)))
  /\ (outcome (train_post mt p X y w)
      = inl (HTTPException 400 "Unsupported model type" None)
      /\ final (train_post mt p X y w) = w)
  /\ (outcome (train_rpc mt rp X y w)
      = inl (RpcAbort INVALID_ARGUMENT "Unsupported model type" None)
      /\ final (train_rpc mt rp X y w) = w)
  /\ AVAILABLE_MODELS !! "random_forest"
     = Some (mkEntry RandomForestClassifier
                     ["n_estimators"; "max_depth"; "random_state"]
                     "Random Forest Classifier")
  /\ AVAILABLE_MODELS !! "logistic_regression"
     = Some (mkEntry LogisticRegression ["C"; "solver"; "max_iter"]
                     "Logistic Regression")
  /\ AVAILABLE_MODELS !! "no_such_model" = None.
Proof.
  intros Hmt.
  pose proof (train_unregistered mt p X y w Hmt) as (He & Hev & _ & Hkey).
  split; [done|].
  unfold TrainModel_post, TrainModel. handler_exec. rewrite Hmt. cbn.
  destruct w. repeat split; reflexivity.
Qed.

(** C5: when a training call returns [(run_id, metrics, uri)], [run_id] is
    the identifier of the run that the call started (and ended as
    FINISHED before returning), [metrics] has the keys accuracy, precision
    and recall, and [uri] is "runs:/" + run_id + "/model". *)
Theorem train_returns_run_metrics_uri mt p X y w run_id m uri w' t :
  train mt p X y w = (inr (run_id, m, uri), w', t) ->
  run_id = new_run_id (w_runs w)
  /\ In (EvStartRun run_id) t
  /\ In (EvEndRun run_id FINISHED) t
  /\ w_active w' = None
  /\ dom m = metric_names
  /\ is_Some (m !! "accuracy") /\ is_Some (m !! "precision") /\ is_Some (m !! "recall")
  /\ uri = "runs:/" +:+ run_id +:+ "/model".
Proof.
  intros H. apply train_returns in H as (Hid & Huri & (yp & ->) & Hs & He & Ha & _).
  pose proof (computed_metrics_dom (accuracy_score y yp) (precision_score y yp)
                                   (recall_score y yp)) as Hdom.
  repeat split; try done.
  all: apply elem_of_dom; rewrite Hdom; unfold metric_names; set_solver.
Qed.

(** C7: given scorers whose scores lie between 0 and 1, every mapping that
    [calculate_metrics] returns has exactly the keys accuracy, precision
    and recall, each with a float between 0 and 1; when a scorer raises
    the three keys are there with 0.0; and the metrics of every row of the
    catalog are of that shape after any sequence of requests, provided they
    were before. *)
Theorem metrics_three_keys_in_unit :
  (forall a b f, accuracy_score a b = inr f -> in_unit f = true) ->
  (forall a b f, precision_score a b = inr f -> in_unit f = true) ->
  (forall a b f, recall_score a b = inr f -> in_unit f = true) ->
  (forall yt yp w, exists m, outcome (calc yt yp w) = inr m /\ metrics_ok m)
  /\ (forall yt yp w,
        (exists e, accuracy_score yt yp = inl e)
        \/ (exists e, precision_score yt yp = inl e)
        \/ (exists e, recall_score yt yp = inl e) ->
        exists m, outcome (calc yt yp w) = inr m
                  /\ m !! "accuracy" = Some float_zero
                  /\ m !! "precision" = Some float_zero
                  /\ m !! "recall" = Some float_zero)
  /\ (forall rs w,
        Forall (fun r => metrics_ok (metrics r)) (w_catalog w) ->
        Forall (fun r => metrics_ok (metrics r)) (w_catalog (serve_reqs rs w))).
Proof.
  intros Ha Hp Hr. split; [|split].
  - intros yt yp w. rewrite calculate_metrics_run. eexists. split; [reflexivity|].
    by apply computed_metrics_ok.
  - intros yt yp w H. rewrite calculate_metrics_run. eexists. split; [reflexivity|].
    rewrite (computed_metrics_raised _ _ _ H). repeat split; reflexivity.
  - intros rs w. apply serve_all_catalog. intros. by apply computed_metrics_ok.
Qed.

(** C8: a training call that finds a run open first logs the warning and
    ends that run, before anything else; and in every training call no
    estimator event (construction, fit, predict) happens while a run is
    open. *)
Theorem stale_run_closed_before_training mt p X y w :
  (forall r0, w_active w = Some r0 ->
     exists t,
       events (train mt p X y w)
       = EvLog "models" WARNING "Found active MLflow run. Ending it forcefully."
         :: EvEndRun r0 FINISHED :: t)
  /\ trains_outside_session (w_active w) (events (train mt p X y w)) = true.
Proof.
  pose proof (train_frame mt p X y w) as (_ & _ & _ & Hq & Hw). split; assumption.
Qed.

(** C9: a training call writes nothing to the catalog: whether it returns
    or raises, the table and the pending session are what they were.  The
    row is written by the caller, after the call has returned. *)
Theorem train_writes_no_catalog_row mt p X y w :
  w_catalog (final (train mt p X y w)) = w_catalog w
  /\ w_session (final (train mt p X y w)) = w_session w
  /\ (w_session w = [] ->
      is_Some (AVAILABLE_MODELS !! mt) ->
      match outcome (train mt p X y w) with
      | inl e => w_catalog (final (train_post mt p X y w)) = w_catalog w
      | inr (run_id, m, uri) =>
          lookup_row run_id (w_catalog w) = None ->
          w_catalog (final (train_post mt p X y w))
          = (w_catalog w ++ [mkMLModel run_id mt p uri (w_clock w) m])%list
      end).
Proof.
  pose proof (train_frame mt p X y w) as (Hc & Hs & _).
  split; [done|]. split; [done|].
  intros Hs0 [entry Hmt]. pose proof (train_post_run mt p X y w Hs0) as H.
  rewrite Hmt in H.
  destruct (outcome (train mt p X y w)) as [e|[[rid m] uri]]; [tauto|].
  intros Hf. by destruct (H Hf).
Qed.

(* ===================================================================== *)
(** ** Further properties of the training call and of the handlers *)
(* ===================================================================== *)

Ltac find_in := repeat (first [left; reflexivity | right]).

(** X3: a training call leaves no run open: whatever it returns or
    raises, the tracking client has no active run afterwards. *)
Theorem train_leaves_no_active_run mt p X y w :
  w_active (final (train mt p X y w)) = None.
Proof. destruct w as [[r0|] runs c s clk]; train_exec; reflexivity. Qed.

(** X4: a training call that raises has either created no run in the
    tracking store, or has created one after fitting the estimator and
    predicting with it, and has ended it: with status FAILED, or with
    status FINISHED when what it raises is the failure of that very last
    call to the server. *)
Theorem failed_training_run_is_ended mt p X y w e :
  outcome (train mt p X y w) = inl e ->
  w_runs (final (train mt p X y w)) = w_runs w
  \/ (w_runs (final (train mt p X y w)) = new_run_id (w_runs w) :: w_runs w
      /\ (exists est fitted yp, fit est X y = inr fitted /\ predict fitted X = inr yp)
      /\ (In (EvEndRun (new_run_id (w_runs w)) FAILED) (events (train mt p X y w))
          \/ (In (EvEndRun (new_run_id (w_runs w)) FINISHED) (events (train mt p X y w))
              /\ mlflow_fault CEndRun None (new_run_id (w_runs w) :: w_runs w) = Some e))).
Proof.
  destruct w as [[r0|] runs c s clk]; train_exec.
  all: try discriminate.
  all: try (intros _; left; reflexivity).
  all: intros [= <-]; right; (split; [reflexivity|]);
    (split; [eexists _, _, _; split; eassumption|]).
  all: first [ left; find_in; fail
             | right; split; [find_in | first [assumption | reflexivity]] ].
Qed.

(** X5: the metrics a training call returns are the scores of the
    predictions that the estimator, built from the normalised parameters
    and fitted on [(X, y)], makes on the very features [X] it was fitted
    on, against the labels [y]. *)
Theorem train_metrics_are_training_set_scores mt p X y w run_id m uri w' t :
  train mt p X y w = (inr (run_id, m, uri), w', t) ->
  exists entry q est fitted yp,
    AVAILABLE_MODELS !! mt = Some entry
    /\ converted_by p q
    /\ construct (entry_class entry) q = inr est
    /\ fit est X y = inr fitted
    /\ predict fitted X = inr yp
    /\ m = computed_metrics (accuracy_score y yp) (precision_score y yp) (recall_score y yp).
Proof.
  destruct w as [[r0|] runs c s clk]; train_exec.
  all: try discriminate.
  all: intros [= <- <- <- <- <-].
  all: eexists _, _, _, _, _; repeat split; eauto.
Qed.

(** X6: a training call that returns has written to the tracking store,
    under the run it returns and in this order, the tag of the model
    type, the normalised parameters, the metrics it returns and the
    estimator under the name "model"; these are its last events, closed
    by the end of the run. *)
Theorem train_logs_to_its_run mt p X y w run_id m uri w' t :
  train mt p X y w = (inr (run_id, m, uri), w', t) ->
  exists q pre,
    converted_by p q
    /\ t = (pre ++ [EvStartRun run_id;
                    EvLogParam run_id "model_type" (PStr mt);
                    EvLogParams run_id q;
                    EvLogMetrics run_id m;
                    EvLogModel run_id "model";
                    EvLog "models" INFO "Model logged to MLflow. Run ID: {run_id}";
                    EvEndRun run_id FINISHED])%list
    /\ forall r, ~ In (EvStartRun r) pre.
Proof.
  destruct w as [[r0|] runs c s clk]; train_exec.
  all: try discriminate.
  all: intros [= <- <- <- <- <-].
  all: eexists _.
  - exists [stale_run_warning; EvEndRun r0 FINISHED;
            EvLog "models" INFO "Starting training for {model_type}"; conversion_log;
            EvConstruct (entry_class r) q; EvFit; EvPredict;
            metrics_log (accuracy_score y l) (precision_score y l) (recall_score y l)].
    split; [eassumption|]. split; [reflexivity|].
    intros r1 H. simpl in H.
    destruct (accuracy_score y l), (precision_score y l), (recall_score y l);
      simpl in H; intuition discriminate.
  - exists [EvLog "models" INFO "Starting training for {model_type}"; conversion_log;
            EvConstruct (entry_class r) q; EvFit; EvPredict;
            metrics_log (accuracy_score y l) (precision_score y l) (recall_score y l)].
    split; [eassumption|]. split; [reflexivity|].
    intros r1 H. simpl in H.
    destruct (accuracy_score y l), (precision_score y l), (recall_score y l);
      simpl in H; intuition discriminate.
Qed.

Lemma train_runs mt p X y w :
  (w_runs (final (train mt p X y w)) = w_runs w
   \/ w_runs (final (train mt p X y w)) = new_run_id (w_runs w) :: w_runs w)
  /\ (forall rid m uri,
        outcome (train mt p X y w) = inr (rid, m, uri) ->
        w_runs (final (train mt p X y w)) = rid :: w_runs w).
Proof.
  destruct w as [[r0|] runs c s clk]; unfold train_and_log_model; train_exec.
  all: split; [auto|]; intros ? ? ? [=]; subst; reflexivity.
Qed.

Ltac split_train2 :=
  match goal with
  | |- context [train_and_log_model _ _ _ _ _ _ _ _ _ ?mt ?p ?X ?y ?w'] =>
      let Hc := fresh "Hc" in
      let Hs := fresh "Hs" in
      let Hk := fresh "Hk" in
      let Hret := fresh "Hret" in
      let Hruns := fresh "Hruns" in
      let Hruns' := fresh "Hruns'" in
      let Hid := fresh "Hid" in
      let Huri := fresh "Huri" in
      let Hreg := fresh "Hreg" in
      pose proof (train_frame mt p X y w') as (Hc & Hs & Hk & _);
      pose proof (train_returns mt p X y w') as Hret;
      pose proof (train_runs mt p X y w') as (Hruns & Hruns');
      destruct (train mt p X y w') as [[[?e|[[?rid ?m] ?uri]] ?w1] ?t];
      cbn in Hc, Hs, Hk, Hruns, Hruns';
      [clear Hret Hruns'
      | specialize (Hret _ _ _ _ _ eq_refl) as (Hid & Huri & _ & _ & _ & _ & Hreg);
        specialize (Hruns' _ _ _ eq_refl)];
      cbn; rewrite ?Hc, ?Hs, ?Hk; cbn
  end.

(** What one request does to the catalog table and to the runs of the
    tracking store: the runs only grow, and the table is kept, or loses
    the rows of one key, or gains one row under a key it did not hold, or
    both; a row gained is well formed and its key is one of the runs. *)
Lemma serve_step r w :
  incl (w_runs w) (w_runs (final (serve_req r w)))
  /\ (w_catalog (final (serve_req r w)) = w_catalog w
      \/ (exists k, w_catalog (final (serve_req r w)) = delete_row k (w_catalog w))
      \/ (exists row,
            (w_catalog (final (serve_req r w)) = (w_catalog w ++ [row])%list
             /\ lookup_row (id row) (w_catalog w) = None
             \/ exists k,
                  w_catalog (final (serve_req r w))
                  = (delete_row k (w_catalog w) ++ [row])%list
                  /\ lookup_row (id row) (delete_row k (w_catalog w)) = None)
            /\ row_ok row
            /\ In (id row) (w_runs (final (serve_req r w))))).
Proof.
  destruct r; unfold serve, TrainModel_post, ModelById_delete, ModelRetrain_post,
    TrainModel, DeleteModel, RetrainModel; handler_exec.
  all: repeat match goal with
         | |- context [match AVAILABLE_MODELS !! ?k with _ => _ end] =>
             destruct (AVAILABLE_MODELS !! k) eqn:?; cbn
         | |- context [match lookup_row ?k ?c with _ => _ end] =>
             destruct (lookup_row k c) eqn:?; cbn
         end.
  all: try split_train2.
  all: repeat match goal with
         | |- context [match lookup_row ?k ?c with _ => _ end] =>
             destruct (lookup_row k c) eqn:?; cbn
         end.
  all: try (split; [apply incl_refl | left; reflexivity]).
  all: try (split; [apply incl_refl | right; left; eexists; reflexivity]).
  all: try (split; [destruct Hruns as [-> | ->]; [apply incl_refl | apply incl_tl, incl_refl]
                   | left; reflexivity]).
  all: split; [rewrite Hruns'; apply incl_tl, incl_refl|]; right; right; eexists _.
  all: split;
    [first [ left; split; [reflexivity | eassumption]
           | right; eexists _; split; [reflexivity | eassumption] ]|].
  all: split; [split; [cbn; rewrite Huri; reflexivity | cbn; assumption]|].
  all: cbn; rewrite Hruns'; left; reflexivity.
Qed.

Context (load_model : string -> result estimator).

Abbreviation predict_post := (ModelPredict_post estimator predict load_model).

Lemma serve_unique r w :
  NoDup (row_ids (w_catalog w)) -> NoDup (row_ids (w_catalog (final (serve_req r w)))).
Proof.
  intros H. destruct (serve_step r w) as (_ & [-> | [(k & ->) | (row & Hc & _)]]).
  - done.
  - by apply NoDup_delete_row.
  - destruct Hc as [(-> & Hf) | (k & -> & Hf)].
    + by apply NoDup_add_row.
    + apply NoDup_add_row; [by apply NoDup_delete_row | done].
Qed.

Lemma serve_rows_ok r w :
  Forall row_ok (w_catalog w) -> Forall row_ok (w_catalog (final (serve_req r w))).
Proof.
  intros H. destruct (serve_step r w) as (_ & [-> | [(k & ->) | (row & Hc & Hok & _)]]).
  - done.
  - by apply Forall_delete_row.
  - destruct Hc as [(-> & _) | (k & -> & _)]; apply Forall_app; split;
      try (by apply Forall_delete_row); try done; by constructor.
Qed.

Lemma serve_ids_issued r w :
  incl (row_ids (w_catalog w)) (w_runs w) ->
  incl (row_ids (w_catalog (final (serve_req r w)))) (w_runs (final (serve_req r w))).
Proof.
  intros H. destruct (serve_step r w) as (Hruns & [-> | [(k & ->) | (row & Hc & _ & Hin)]]).
  - intros x Hx. auto.
  - intros x Hx. apply row_ids_delete_row in Hx as [Hx _]. auto.
  - destruct Hc as [(-> & _) | (k & -> & _)]; unfold row_ids; rewrite map_app;
      intros x [Hx | [<- | []]]%in_app_or; try done.
    + auto.
    + apply (row_ids_delete_row k (w_catalog w) x) in Hx as [Hx _]. auto.
Qed.

(** X7: the primary key stays a key: if no two rows of the catalog have
    the same identifier, none have after any sequence of requests. *)
Theorem catalog_ids_stay_unique rs w :
  NoDup (row_ids (w_catalog w)) -> NoDup (row_ids (w_catalog (serve_reqs rs w))).
Proof.
  revert w. induction rs as [|r rs IH]; intros w H; simpl; [done|].
  apply IH. by apply serve_unique.
Qed.

(** X8: every row the handlers write points to the artifact of its own
    run, "runs:/" + id + "/model", and has a model type that the registry
    holds; so have all rows after any sequence of requests, if they had
    before. *)
Theorem catalog_rows_stay_well_formed rs w :
  Forall row_ok (w_catalog w) -> Forall row_ok (w_catalog (serve_reqs rs w)).
Proof.
  revert w. induction rs as [|r rs IH]; intros w H; simpl; [done|].
  apply IH. by apply serve_rows_ok.
Qed.

(** X9: the identifiers of the catalog are run identifiers of the
    tracking store: if every row's identifier is one of the runs issued so
    far, this is still so after any sequence of requests. *)
Theorem catalog_ids_are_issued_runs rs w :
  incl (row_ids (w_catalog w)) (w_runs w) ->
  incl (row_ids (w_catalog (serve_reqs rs w))) (w_runs (serve_reqs rs w)).
Proof.
  revert w. induction rs as [|r rs IH]; intros w H; simpl; [done|].
  apply IH. by apply serve_ids_issued.
Qed.

Lemma delete_rest_run k w :
  w_session w = [] ->
  ModelById_delete k w
  = match lookup_row k (w_catalog w) with
    | Some record =>
        (inr 204%Z, set_catalog (delete_row (id record) (w_catalog w)) w,
         [EvLog "flask_app" INFO "Request to delete model: {model_id}";
          EvLog "flask_app" INFO "Model record deleted successfully: {model_id}"])
    | None =>
        (inl (HTTPException 404 "Model not found" None), w,
         [EvLog "flask_app" INFO "Request to delete model: {model_id}";
          EvLog "flask_app" WARNING "Model not found for deletion: {model_id}"])
    end.
Proof.
  intros Hs. unfold ModelById_delete. handler_exec.
  destruct (lookup_row k (w_catalog w)); cbn; [|reflexivity].
  rewrite Hs. destruct w; cbn in *. subst. reflexivity.
Qed.

Lemma delete_rpc_run k w :
  w_session w = [] ->
  DeleteModel k w
  = match lookup_row k (w_catalog w) with
    | Some record =>
        (inr true, set_catalog (delete_row (id record) (w_catalog w)) w,
         [EvLog "grpc_server" INFO "Request to delete model via gRPC: {request.model_id}";
          EvLog "grpc_server" INFO "Model deleted successfully via gRPC: {request.model_id}"])
    | None =>
        (inl (RpcAbort NOT_FOUND "Model not found" None), w,
         [EvLog "grpc_server" INFO "Request to delete model via gRPC: {request.model_id}";
          EvLog "grpc_server" WARNING
                "Model not found for deletion via gRPC: {request.model_id}"])
    end.
Proof.
  intros Hs. unfold DeleteModel. handler_exec.
  destruct (lookup_row k (w_catalog w)); cbn; [|reflexivity].
  rewrite Hs. destruct w; cbn in *. subst. reflexivity.
Qed.

(** X10: deleting a model that the catalog holds, over REST or over RPC,
    removes its row and nothing else: the identifier no longer resolves,
    every other identifier resolves as before, and the tracking store is
    not touched (the runs and their artifacts stay). *)
Theorem delete_removes_only_that_row k w record :
  lookup_row k (w_catalog w) = Some record ->
  w_session w = [] ->
  outcome (ModelById_delete k w) = inr 204%Z
  /\ outcome (DeleteModel k w) = inr true
  /\ forallb is_log (events (ModelById_delete k w)) = true
  /\ forallb is_log (events (DeleteModel k w)) = true
  /\ forall w',
       w' = final (ModelById_delete k w) \/ w' = final (DeleteModel k w) ->
       lookup_row k (w_catalog w') = None
       /\ (forall k', k' <> k -> lookup_row k' (w_catalog w') = lookup_row k' (w_catalog w))
       /\ w_runs w' = w_runs w /\ w_active w' = w_active w.
Proof.
  intros Hrec Hs. rewrite (delete_rest_run k w Hs), (delete_rpc_run k w Hs), Hrec.
  split; [reflexivity|]. split; [reflexivity|].
  split; [reflexivity|]. split; [reflexivity|].
  intros w' Hw'.
  assert (Hw : w' = set_catalog (delete_row k (w_catalog w)) w).
  { rewrite <- (lookup_row_id _ _ _ Hrec). destruct Hw' as [-> | ->]; reflexivity. }
  subst w'. cbn. rewrite lookup_delete_row, String.eqb_refl.
  split; [reflexivity|]. split; [|by repeat split].
  intros k' Hne. rewrite lookup_delete_row.
  destruct (String.eqb k k') eqn:E; [|reflexivity].
  apply String.eqb_eq in E. congruence.
Qed.

Lemma metrics_get_run k w :
  ModelMetrics_get k w
  = match lookup_row k (w_catalog w) with
    | Some record =>
        (inr (metrics record, 200%Z), w,
         [EvLog "flask_app" INFO "Metrics request for model: {model_id}";
          EvLog "flask_app" INFO "Returning metrics for model: {model_id}"])
    | None =>
        (inl (HTTPException 404 "Model not found" None), w,
         [EvLog "flask_app" INFO "Metrics request for model: {model_id}";
          EvLog "flask_app" WARNING "Model not found for metrics: {model_id}"])
    end.
Proof.
  unfold ModelMetrics_get. handler_exec. destruct (lookup_row k (w_catalog w)); reflexivity.
Qed.

Lemma metrics_rpc_run k w :
  GetMetrics k w
  = match lookup_row k (w_catalog w) with
    | Some record =>
        (inr (metrics record), w,
         [EvLog "grpc_server" INFO "Metrics request for model via gRPC: {request.model_id}";
          EvLog "grpc_server" INFO
                "Returning metrics via gRPC for model: {request.model_id}"])
    | None =>
        (inl (RpcAbort NOT_FOUND "Model not found" None), w,
         [EvLog "grpc_server" INFO "Metrics request for model via gRPC: {request.model_id}";
          EvLog "grpc_server" WARNING
                "Model not found for metrics via gRPC: {request.model_id}"])
    end.
Proof.
  unfold GetMetrics. handler_exec. destruct (lookup_row k (w_catalog w)); reflexivity.
Qed.

Lemma model_get_run k w :
  ModelById_get k w
  = match lookup_row k (w_catalog w) with
    | Some record =>
        (inr (view_of record, 200%Z), w,
         [EvLog "flask_app" INFO "Request for model info: {model_id}";
          EvLog "flask_app" INFO "Returning model info: {model_id}"])
    | None =>
        (inl (HTTPException 404 "Model not found" None), w,
         [EvLog "flask_app" INFO "Request for model info: {model_id}";
          EvLog "flask_app" WARNING "Model not found: {model_id}"])
    end.
Proof.
  unfold ModelById_get, to_dict. handler_exec.
  destruct (lookup_row k (w_catalog w)); reflexivity.
Qed.

Lemma list_get_run w :
  ListModels_get w
  = (inr (map view_of (w_catalog w), 200%Z), w,
     [EvLog "flask_app" INFO "Request for list of all models";
      EvLog "flask_app" INFO "Returning {len(result)} models"]).
Proof.
  unfold ListModels_get. do 3 unfold_m. cbn. rewrite for_each_to_dict. reflexivity.
Qed.

Lemma predict_post_run k X w :
  predict_post k X w
  = match lookup_row k (w_catalog w) with
    | None =>
        (inl (HTTPException 404 "Model not found" None), w,
         [EvLog "flask_app" INFO "Prediction request for model: {model_id}";
          EvLog "flask_app" WARNING "Model not found for prediction: {model_id}"])
    | Some record =>
        match load_model (file_path record) with
        | inl _ =>
            (inl (HTTPException 500 "Failed to load model or make prediction" None), w,
             [EvLog "flask_app" INFO "Prediction request for model: {model_id}";
              EvLog "models" INFO "Loading model from URI: {model_uri}";
              EvLog "flask_app" ERROR "Prediction failed: {e}"])
        | inr model =>
            match predict model X with
            | inl _ =>
                (inl (HTTPException 500 "Failed to load model or make prediction" None), w,
                 [EvLog "flask_app" INFO "Prediction request for model: {model_id}";
                  EvLog "models" INFO "Loading model from URI: {model_uri}";
                  EvLog "flask_app" INFO "Making prediction with {len(X)} samples";
                  EvLog "flask_app" ERROR "Prediction failed: {e}"])
            | inr preds =>
                (inr (preds, 200%Z), w,
                 [EvLog "flask_app" INFO "Prediction request for model: {model_id}";
                  EvLog "models" INFO "Loading model from URI: {model_uri}";
                  EvLog "flask_app" INFO "Making prediction with {len(X)} samples";
                  EvLog "flask_app" INFO
                        "Prediction completed. Returning {len(preds)} predictions"])
            end
        end
    end.
Proof.
  unfold ModelPredict_post, load_model_from_mlflow. handler_exec.
  destruct (lookup_row k (w_catalog w)); cbn; [|reflexivity].
  destruct (load_model (file_path m)); cbn; [reflexivity|].
  destruct (predict e X); reflexivity.
Qed.

(** X11: an identifier that the catalog does not hold is answered "Model
    not found" (status 404, NOT_FOUND) by every endpoint that takes one,
    and the state is left exactly as it was: no row written, no run
    started, no model loaded. *)
Theorem unknown_id_is_not_found k X y w :
  lookup_row k (w_catalog w) = None ->
  let not_found := HTTPException 404 "Model not found" None in
  let rpc_not_found := RpcAbort NOT_FOUND "Model not found" None in
  (outcome (ModelById_get k w) = inl not_found /\ final (ModelById_get k w) = w)
  /\ (outcome (ModelById_delete k w) = inl not_found /\ final (ModelById_delete k w) = w)
  /\ (outcome (predict_post k X w) = inl not_found /\ final (predict_post k X w) = w)
  /\ (outcome (retrain_post k X y w) = inl not_found /\ final (retrain_post k X y w) = w)
  /\ (outcome (ModelMetrics_get k w) = inl not_found /\ final (ModelMetrics_get k w) = w)
  /\ (outcome (DeleteModel k w) = inl rpc_not_found /\ final (DeleteModel k w) = w)
  /\ (outcome (retrain_rpc k X y w) = inl rpc_not_found /\ final (retrain_rpc k X y w) = w)
  /\ (outcome (GetMetrics k w) = inl rpc_not_found /\ final (GetMetrics k w) = w).
Proof.
  intros Hk not_found rpc_not_found.
  rewrite model_get_run, metrics_get_run, metrics_rpc_run, predict_post_run, Hk.
  unfold ModelById_delete, DeleteModel, ModelRetrain_post, RetrainModel. handler_exec.
  rewrite Hk. cbn. destruct w. repeat split; reflexivity.
Qed.

(** X12: a model trained over REST can be read back: its metrics, over
    REST and over RPC, are the metrics the training returned; its
    description has the type and the parameters of the request, as
    received; and the list of models ends with it and holds it once. *)
Theorem trained_model_can_be_read mt p X y w run_id m uri :
  w_session w = [] ->
  is_Some (AVAILABLE_MODELS !! mt) ->
  outcome (train mt p X y w) = inr (run_id, m, uri) ->
  lookup_row run_id (w_catalog w) = None ->
  let w' := final (train_post mt p X y w) in
  let row := mkMLModel run_id mt p uri (w_clock w) m in
  outcome (ModelMetrics_get run_id w') = inr (m, 200%Z)
  /\ outcome (GetMetrics run_id w') = inr m
  /\ outcome (ModelById_get run_id w') = inr (view_of row, 200%Z)
  /\ outcome (ListModels_get w')
     = inr ((map view_of (w_catalog w) ++ [view_of row])%list, 200%Z)
  /\ (forall v, In v (map view_of (w_catalog w)) -> view_id v <> run_id).
Proof.
  intros Hs [entry Hmt] Hrun Hfresh w' row.
  pose proof (train_post_run mt p X y w Hs) as H. rewrite Hmt, Hrun in H.
  destruct (H Hfresh) as [_ Hc]. fold w' in Hc.
  assert (Hrow : lookup_row run_id (w_catalog w') = Some row).
  { rewrite Hc, lookup_row_app, Hfresh. cbn. rewrite String.eqb_refl. reflexivity. }
  rewrite metrics_get_run, metrics_rpc_run, model_get_run, list_get_run, Hrow, Hc.
  rewrite map_app. repeat split; try reflexivity.
  intros v Hv Hid. apply in_map_iff in Hv as (r & <- & Hr).
  apply lookup_row_None in Hfresh. apply Hfresh. unfold row_ids.
  apply in_map_iff. exists r. split; [exact Hid | exact Hr].
Qed.

(** X13: a prediction request never changes the state.  For a model of
    the catalog it loads the artifact named by the row and returns the
    predictions of that estimator on [X] with status 200; when the load or
    the prediction raises, the answer is the same status 500, "Failed to
    load model or make prediction", without the cause. *)
Theorem predict_reads_only k X w record :
  lookup_row k (w_catalog w) = Some record ->
  final (predict_post k X w) = w
  /\ forallb is_log (events (predict_post k X w)) = true
  /\ (forall est preds,
        load_model (file_path record) = inr est -> predict est X = inr preds ->
        outcome (predict_post k X w) = inr (preds, 200%Z))
  /\ ((exists e, load_model (file_path record) = inl e)
      \/ (exists est e, load_model (file_path record) = inr est /\ predict est X = inl e) ->
      outcome (predict_post k X w)
      = inl (HTTPException 500 "Failed to load model or make prediction" None)).
Proof.
  intros Hk. rewrite predict_post_run, Hk.
  destruct (load_model (file_path record)) as [e|est] eqn:El.
  - repeat split; try reflexivity. intros ? ? [=].
  - destruct (predict est X) as [e|preds] eqn:Ep.
    + repeat split; try reflexivity. intros ? ? [= <-]. rewrite Ep. intros [=].
    + repeat split; try reflexivity.
      * intros ? ? [= <-]. rewrite Ep. intros [= <-]. reflexivity.
      * intros [[e [=]] | (est' & e & [= <-] & He)]. rewrite Ep in He. discriminate.
Qed.

(** X14: the endpoints that read the catalog leave the state exactly as
    it was, and the list of models is answered with status 200 and one
    description per row, in the order of the table. *)
Theorem readers_leave_state k w :
  final (ListModels_get w) = w
  /\ final (ModelById_get k w) = w
  /\ final (ModelMetrics_get k w) = w
  /\ final (GetMetrics k w) = w
  /\ outcome (ListModels_get w) = inr (map view_of (w_catalog w), 200%Z).
Proof.
  rewrite list_get_run, model_get_run, metrics_get_run, metrics_rpc_run.
  destruct (lookup_row k (w_catalog w)); repeat split; reflexivity.
Qed.

(** X15: when the run identifier that a training returns is already a key
    of the catalog, nothing is written: over REST the [IntegrityError] of
    the commit is raised as it is, over RPC it is answered INTERNAL with
    that error as its cause; the table is what it was. *)
Theorem duplicate_run_id_writes_nothing mt p rp X y w :
  w_session w = [] ->
  is_Some (AVAILABLE_MODELS !! mt) ->
  (forall run_id m uri,
     outcome (train mt p X y w) = inr (run_id, m, uri) ->
     is_Some (lookup_row run_id (w_catalog w)) ->
     outcome (train_post mt p X y w) = inl (IntegrityError run_id)
     /\ w_catalog (final (train_post mt p X y w)) = w_catalog w)
  /\ (forall run_id m uri,
        outcome (train mt (PStr <$> rp) X y w) = inr (run_id, m, uri) ->
        is_Some (lookup_row run_id (w_catalog w)) ->
        outcome (train_rpc mt rp X y w)
        = inl (RpcAbort INTERNAL "Training failed: {str(e)}" (Some (IntegrityError run_id)))
        /\ w_catalog (final (train_rpc mt rp X y w)) = w_catalog w).
Proof.
  intros Hs [entry Hmt]. split.
  - intros rid m uri Hrun [old Hold].
    pose proof (train_frame mt p X y w) as (Hc & Hs' & Hk & _).
    unfold TrainModel_post. handler_exec. rewrite Hmt. cbn.
    destruct (train mt p X y w) as [[[e|[[rid' m'] uri']] w1] t]; cbn in *; [discriminate|].
    injection Hrun as -> -> ->. rewrite Hs', Hs, Hc. cbn. rewrite Hold. cbn.
    split; reflexivity.
  - intros rid m uri Hrun [old Hold].
    pose proof (train_frame mt (PStr <$> rp) X y w) as (Hc & Hs' & Hk & _).
    unfold TrainModel. handler_exec. rewrite Hmt. cbn.
    destruct (train mt (PStr <$> rp) X y w) as [[[e|[[rid' m'] uri']] w1] t];
      cbn in *; [discriminate|].
    injection Hrun as -> -> ->. rewrite Hs', Hs, Hc. cbn. rewrite Hold. cbn.
    split; reflexivity.
Qed.

End ServiceFacts.

(* ===================================================================== *)
(** ** The properties at work on the small library *)
(* ===================================================================== *)

Lemma retrain_replaces_or_keeps_record_witness :
  lookup_row "a" (w_catalog Stub.w1) = Some Stub.record_a
  /\ w_session Stub.w1 = []
  /\ (exists m, outcome (Stub.train Stub.new_run_id Stub.no_fault
                                   (model_type Stub.record_a) (params Stub.record_a)
                                   Stub.X4 Stub.y4 Stub.w1)
                = inr ("run1", m, "runs:/run1/model"))
  /\ lookup_row "run1" (w_catalog Stub.w1) = None
  /\ lookup_row "a" (w_catalog (final (Stub.retrain_post "a" Stub.X4 Stub.y4 Stub.w1))) = None
  /\ (exists r,
        lookup_row "run1" (w_catalog (final (Stub.retrain_rpc "a" Stub.X4 Stub.y4 Stub.w1)))
        = Some r).
Proof.
  assert (Hrec : lookup_row "a" (w_catalog Stub.w1) = Some Stub.record_a) by reflexivity.
  assert (Hs : w_session Stub.w1 = []) by reflexivity.
  assert (Hfresh : lookup_row "run1" (w_catalog Stub.w1) = None) by reflexivity.
  assert (Hrun : exists m, outcome (Stub.train Stub.new_run_id Stub.no_fault
                                   (model_type Stub.record_a) (params Stub.record_a)
                                   Stub.X4 Stub.y4 Stub.w1)
                = inr ("run1", m, "runs:/run1/model"))
    by (eexists; vm_compute; reflexivity).
  split; [exact Hrec|]. split; [exact Hs|]. split; [exact Hrun|]. split; [exact Hfresh|].
  destruct Hrun as [m E].
  pose proof (retrain_replaces_or_keeps_record
                Stub.estimator Stub.construct Stub.fit Stub.predict
                Stub.score Stub.score Stub.score Stub.new_run_id Stub.no_fault
                "a" Stub.X4 Stub.y4 Stub.w1 Stub.record_a Hrec Hs) as H.
  rewrite E in H.
  destruct (H Hfresh) as (_ & _ & Hc).
  split.
  - destruct (Hc _ (or_introl eq_refl)) as (_ & Hold & _). exact Hold.
  - destruct (Hc _ (or_intror eq_refl)) as (_ & _ & Hnew). eexists. exact Hnew.
Defined.

Lemma calculate_metrics_never_raises_witness :
  outcome (calculate_metrics Stub.score Stub.score Stub.score [PInt 0; PInt 1] [PInt 0] Stub.w0)
  = inr default_metrics.
Proof.
  apply (proj1 (proj2 (calculate_metrics_never_raises
                         Stub.score Stub.score Stub.score [PInt 0; PInt 1] [PInt 0] Stub.w0))).
  left. eexists. reflexivity.
Defined.

Lemma unregistered_model_type_is_rejected_witness :
  AVAILABLE_MODELS !! "no_such_model" = None
  /\ outcome (Stub.train Stub.new_run_id Stub.no_fault "no_such_model" ∅ Stub.X4 Stub.y4 Stub.w0)
     = inl (KeyError "no_such_model")
  /\ outcome (Stub.train_post "no_such_model" ∅ Stub.X4 Stub.y4 Stub.w0)
     = inl (HTTPException 400 "Unsupported model type" None).
Proof.
  split; [reflexivity|].
  pose proof (unregistered_model_type_is_rejected
                Stub.estimator Stub.construct Stub.fit Stub.predict
                Stub.score Stub.score Stub.score Stub.new_run_id Stub.no_fault
                "no_such_model" ∅ ∅ Stub.X4 Stub.y4 Stub.w0 eq_refl)
    as ((_ & _ & Hkey) & (Hpost & _) & _).
  split; [|exact Hpost].
  apply Hkey.
  - intros k v e Hk. rewrite lookup_empty in Hk. discriminate Hk.
  - intros r0 Hr. discriminate Hr.
Defined.

Lemma train_returns_run_metrics_uri_witness :
  exists m w' t,
    Stub.train Stub.new_run_id Stub.no_fault "random_forest" Stub.params4 Stub.X4 Stub.y4 Stub.w0
    = (inr ("run0", m, "runs:/run0/model"), w', t)
    /\ In (EvStartRun "run0") t
    /\ dom m = metric_names.
Proof.
  destruct (Stub.train Stub.new_run_id Stub.no_fault "random_forest"
                       Stub.params4 Stub.X4 Stub.y4 Stub.w0)
    as [[[e|[[rid m] uri]] w'] t] eqn:E.
  - vm_compute in E. discriminate E.
  - destruct (train_returns_run_metrics_uri
                Stub.estimator Stub.construct Stub.fit Stub.predict
                Stub.score Stub.score Stub.score Stub.new_run_id Stub.no_fault
                _ _ _ _ _ _ _ _ _ _ E)
      as (Hid & Hs & _ & _ & Hdom & _ & _ & _ & Huri).
    subst uri. subst rid. exists m, w', t. split; [reflexivity|]. split; [exact Hs | exact Hdom].
Defined.

Lemma metrics_three_keys_in_unit_witness :
  exists m,
    outcome (calculate_metrics Stub.score Stub.score Stub.score Stub.y4 Stub.y4 Stub.w0) = inr m
    /\ metrics_ok m.
Proof.
  assert (Hscore : forall a b f, Stub.score a b = inr f -> in_unit f = true).
  { intros a b f. unfold Stub.score. destruct (length a =? length b)%nat; intros H.
    - injection H as <-. reflexivity.
    - discriminate H. }
  exact (proj1 (metrics_three_keys_in_unit
                  Stub.estimator Stub.construct Stub.fit Stub.predict
                  Stub.score Stub.score Stub.score Stub.new_run_id Stub.no_fault
                  Hscore Hscore Hscore) Stub.y4 Stub.y4 Stub.w0).
Defined.

Lemma stale_run_closed_before_training_witness :
  w_active Stub.w2 = Some "stale"
  /\ exists t,
       events (Stub.train Stub.new_run_id Stub.no_fault "random_forest"
                          Stub.params4 Stub.X4 Stub.y4 Stub.w2)
       = EvLog "models" WARNING "Found active MLflow run. Ending it forcefully."
         :: EvEndRun "stale" FINISHED :: t.
Proof.
  split; [reflexivity|].
  exact (proj1 (stale_run_closed_before_training
                  Stub.estimator Stub.construct Stub.fit Stub.predict
                  Stub.score Stub.score Stub.score Stub.new_run_id Stub.no_fault
                  "random_forest" Stub.params4 Stub.X4 Stub.y4 Stub.w2) "stale" eq_refl).
Defined.

Lemma train_writes_no_catalog_row_witness :
  w_session Stub.w0 = []
  /\ is_Some (AVAILABLE_MODELS !! "random_forest")
  /\ w_catalog (final (Stub.train Stub.new_run_id Stub.no_fault "random_forest"
                                  Stub.params4 Stub.X4 Stub.y4 Stub.w0))
     = w_catalog Stub.w0
  /\ exists m,
       outcome (Stub.train Stub.new_run_id Stub.no_fault "random_forest"
                           Stub.params4 Stub.X4 Stub.y4 Stub.w0)
       = inr ("run0", m, "runs:/run0/model")
       /\ w_catalog (final (Stub.train_post "random_forest" Stub.params4
                                            Stub.X4 Stub.y4 Stub.w0))
          = [mkMLModel "run0" "random_forest" Stub.params4 "runs:/run0/model" 0 m].
Proof.
  assert (Hs : is_Some (AVAILABLE_MODELS !! "random_forest")) by (eexists; reflexivity).
  assert (Hrun : exists m,
             outcome (Stub.train Stub.new_run_id Stub.no_fault "random_forest"
                                 Stub.params4 Stub.X4 Stub.y4 Stub.w0)
             = inr ("run0", m, "runs:/run0/model"))
    by (eexists; vm_compute; reflexivity).
  pose proof (train_writes_no_catalog_row
                Stub.estimator Stub.construct Stub.fit Stub.predict
                Stub.score Stub.score Stub.score Stub.new_run_id Stub.no_fault
                "random_forest" Stub.params4 Stub.X4 Stub.y4 Stub.w0)
    as (Hc & _ & Hpost).
  split; [reflexivity|]. split; [exact Hs|]. split; [exact Hc|].
  destruct Hrun as [m E]. specialize (Hpost eq_refl Hs). rewrite E in Hpost.
  exists m. split; [exact E | exact (Hpost eq_refl)].
Defined.

(* ===================================================================== *)
(** ** The further properties at work on the small library *)
(* ===================================================================== *)

Lemma failed_training_run_is_ended_witness :
  outcome (Stub.train Stub.new_run_id Stub.log_model_fault "random_forest"
                      Stub.params4 Stub.X4 Stub.y4 Stub.w0)
  = inl (LibraryError "MlflowException" "artifact store unavailable")
  /\ In (EvEndRun (Stub.new_run_id (w_runs Stub.w0)) FAILED)
        (events (Stub.train Stub.new_run_id Stub.log_model_fault "random_forest"
                            Stub.params4 Stub.X4 Stub.y4 Stub.w0)).
Proof.
  assert (E : outcome (Stub.train Stub.new_run_id Stub.log_model_fault "random_forest"
                                  Stub.params4 Stub.X4 Stub.y4 Stub.w0)
              = inl (LibraryError "MlflowException" "artifact store unavailable"))
    by (vm_compute; reflexivity).
  split; [exact E|].
  destruct (failed_training_run_is_ended
              Stub.estimator Stub.construct Stub.fit Stub.predict
              Stub.score Stub.score Stub.score Stub.new_run_id Stub.log_model_fault
              "random_forest" Stub.params4 Stub.X4 Stub.y4 Stub.w0 _ E)
    as [Hnone | (_ & _ & [Hfailed | (_ & Hend)])].
  - vm_compute in Hnone. discriminate Hnone.
  - exact Hfailed.
  - discriminate Hend.
Defined.

Lemma train_metrics_are_training_set_scores_witness :
  exists m w' t,
    Stub.train Stub.new_run_id Stub.no_fault "random_forest" Stub.params4 Stub.X4 Stub.y4 Stub.w0
    = (inr ("run0", m, "runs:/run0/model"), w', t)
    /\ m = computed_metrics (Stub.score Stub.y4 Stub.y4) (Stub.score Stub.y4 Stub.y4)
                            (Stub.score Stub.y4 Stub.y4).
Proof.
  assert (E : exists m w' t,
             Stub.train Stub.new_run_id Stub.no_fault "random_forest"
                        Stub.params4 Stub.X4 Stub.y4 Stub.w0
             = (inr ("run0", m, "runs:/run0/model"), w', t))
    by (do 3 eexists; vm_compute; reflexivity).
  destruct E as (m & w' & t & E).
  destruct (train_metrics_are_training_set_scores
              Stub.estimator Stub.construct Stub.fit Stub.predict
              Stub.score Stub.score Stub.score Stub.new_run_id Stub.no_fault
              _ _ _ _ _ _ _ _ _ _ E)
    as (entry & q & est & fitted & yp & _ & _ & _ & Hfit & Hpred & Hm).
  injection Hfit as <-. injection Hpred as <-.
  exists m, w', t. split; [exact E | exact Hm].
Defined.

Lemma train_logs_to_its_run_witness :
  exists m w' t,
    Stub.train Stub.new_run_id Stub.no_fault "random_forest" Stub.params4 Stub.X4 Stub.y4 Stub.w2
    = (inr ("run2", m, "runs:/run2/model"), w', t)
    /\ exists q pre,
         converted_by Stub.params4 q
         /\ t = (pre ++ [EvStartRun "run2";
                         EvLogParam "run2" "model_type" (PStr "random_forest");
                         EvLogParams "run2" q;
                         EvLogMetrics "run2" m;
                         EvLogModel "run2" "model";
                         EvLog "models" INFO "Model logged to MLflow. Run ID: {run_id}";
                         EvEndRun "run2" FINISHED])%list
         /\ forall r, ~ In (EvStartRun r) pre.
Proof.
  assert (E : exists m w' t,
             Stub.train Stub.new_run_id Stub.no_fault "random_forest"
                        Stub.params4 Stub.X4 Stub.y4 Stub.w2
             = (inr ("run2", m, "runs:/run2/model"), w', t))
    by (do 3 eexists; vm_compute; reflexivity).
  destruct E as (m & w' & t & E).
  exists m, w', t. split; [exact E|].
  exact (train_logs_to_its_run
           Stub.estimator Stub.construct Stub.fit Stub.predict
           Stub.score Stub.score Stub.score Stub.new_run_id Stub.no_fault
           _ _ _ _ _ _ _ _ _ _ E).
Defined.

Lemma catalog_ids_stay_unique_witness :
  NoDup (row_ids (w_catalog Stub.w1))
  /\ NoDup (row_ids (w_catalog
              (serve_all Stub.estimator Stub.construct Stub.fit Stub.predict
                         Stub.score Stub.score Stub.score Stub.new_run_id Stub.no_fault
                         [PostTrain "random_forest" Stub.params4 Stub.X4 Stub.y4;
                          PostRetrain "a" Stub.X4 Stub.y4;
                          RpcDelete "run1"]
                         Stub.w1))).
Proof.
  assert (H : NoDup (row_ids (w_catalog Stub.w1))) by apply NoDup_singleton.
  split; [exact H|].
  exact (catalog_ids_stay_unique
           Stub.estimator Stub.construct Stub.fit Stub.predict
           Stub.score Stub.score Stub.score Stub.new_run_id Stub.no_fault
           _ Stub.w1 H).
Defined.

Lemma catalog_rows_stay_well_formed_witness :
  Forall row_ok (w_catalog Stub.w1)
  /\ Forall row_ok (w_catalog
              (serve_all Stub.estimator Stub.construct Stub.fit Stub.predict
                         Stub.score Stub.score Stub.score Stub.new_run_id Stub.no_fault
                         [RpcTrain "logistic_regression" ∅ Stub.X4 Stub.y4;
                          RpcRetrain "a" Stub.X4 Stub.y4;
                          DeleteById "run1"]
                         Stub.w1)).
Proof.
  assert (H : Forall row_ok (w_catalog Stub.w1)).
  { constructor; [|constructor]. split; [reflexivity | eexists; reflexivity]. }
  split; [exact H|].
  exact (catalog_rows_stay_well_formed
           Stub.estimator Stub.construct Stub.fit Stub.predict
           Stub.score Stub.score Stub.score Stub.new_run_id Stub.no_fault
           _ Stub.w1 H).
Defined.

Lemma catalog_ids_are_issued_runs_witness :
  incl (row_ids (w_catalog Stub.w1)) (w_runs Stub.w1)
  /\ incl (row_ids (w_catalog
              (serve_all Stub.estimator Stub.construct Stub.fit Stub.predict
                         Stub.score Stub.score Stub.score Stub.new_run_id Stub.start_fault
                         [PostTrain "random_forest" Stub.params4 Stub.X4 Stub.y4;
                          PostRetrain "a" Stub.X4 Stub.y4]
                         Stub.w1)))
          (w_runs
              (serve_all Stub.estimator Stub.construct Stub.fit Stub.predict
                         Stub.score Stub.score Stub.score Stub.new_run_id Stub.start_fault
                         [PostTrain "random_forest" Stub.params4 Stub.X4 Stub.y4;
                          PostRetrain "a" Stub.X4 Stub.y4]
                         Stub.w1)).
Proof.
  assert (H : incl (row_ids (w_catalog Stub.w1)) (w_runs Stub.w1)) by (intros x Hx; exact Hx).
  split; [exact H|].
  exact (catalog_ids_are_issued_runs
           Stub.estimator Stub.construct Stub.fit Stub.predict
           Stub.score Stub.score Stub.score Stub.new_run_id Stub.start_fault
           _ Stub.w1 H).
Defined.

Lemma delete_removes_only_that_row_witness :
  lookup_row "a" (w_catalog Stub.w1) = Some Stub.record_a
  /\ w_session Stub.w1 = []
  /\ outcome (ModelById_delete "a" Stub.w1) = inr 204%Z
  /\ lookup_row "a" (w_catalog (final (ModelById_delete "a" Stub.w1))) = None
  /\ w_runs (final (DeleteModel "a" Stub.w1)) = w_runs Stub.w1.
Proof.
  split; [reflexivity|]. split; [reflexivity|].
  destruct (delete_removes_only_that_row "a" Stub.w1 Stub.record_a eq_refl eq_refl)
    as (Hout & _ & _ & _ & H).
  split; [exact Hout|].
  split.
  - exact (proj1 (H _ (or_introl eq_refl))).
  - exact (proj1 (proj2 (proj2 (H _ (or_intror eq_refl))))).
Defined.

Lemma unknown_id_is_not_found_witness :
  lookup_row "b" (w_catalog Stub.w1) = None
  /\ outcome (ModelById_get "b" Stub.w1) = inl (HTTPException 404 "Model not found" None)
  /\ outcome (Stub.retrain_rpc "b" Stub.X4 Stub.y4 Stub.w1)
     = inl (RpcAbort NOT_FOUND "Model not found" None)
  /\ final (Stub.retrain_post "b" Stub.X4 Stub.y4 Stub.w1) = Stub.w1.
Proof.
  split; [reflexivity|].
  pose proof (unknown_id_is_not_found
                Stub.estimator Stub.construct Stub.fit Stub.predict
                Stub.score Stub.score Stub.score Stub.new_run_id Stub.no_fault
                Stub.load_model "b" Stub.X4 Stub.y4 Stub.w1 eq_refl) as H.
  cbv zeta in H.
  destruct H as ((Hget & _) & _ & _ & (_ & Hpost) & _ & _ & (Hrpc & _) & _).
  split; [exact Hget|]. split; [exact Hrpc | exact Hpost].
Defined.

Lemma trained_model_can_be_read_witness :
  exists m,
    outcome (Stub.train Stub.new_run_id Stub.no_fault "random_forest"
                        Stub.params4 Stub.X4 Stub.y4 Stub.w0)
    = inr ("run0", m, "runs:/run0/model")
    /\ outcome (GetMetrics "run0" (final (Stub.train_post "random_forest" Stub.params4
                                                          Stub.X4 Stub.y4 Stub.w0)))
       = inr m
    /\ outcome (ModelById_get "run0" (final (Stub.train_post "random_forest" Stub.params4
                                                             Stub.X4 Stub.y4 Stub.w0)))
       = inr (view_of (mkMLModel "run0" "random_forest" Stub.params4 "runs:/run0/model"
                                 (w_clock Stub.w0) m), 200%Z).
Proof.
  assert (Hs : is_Some (AVAILABLE_MODELS !! "random_forest")) by (eexists; reflexivity).
  assert (E : exists m,
             outcome (Stub.train Stub.new_run_id Stub.no_fault "random_forest"
                                 Stub.params4 Stub.X4 Stub.y4 Stub.w0)
             = inr ("run0", m, "runs:/run0/model"))
    by (eexists; vm_compute; reflexivity).
  destruct E as [m E]. exists m. split; [exact E|].
  pose proof (trained_model_can_be_read
                Stub.estimator Stub.construct Stub.fit Stub.predict
                Stub.score Stub.score Stub.score Stub.new_run_id Stub.no_fault
                "random_forest" Stub.params4 Stub.X4 Stub.y4 Stub.w0
                "run0" m "runs:/run0/model" eq_refl Hs E eq_refl) as H.
  cbv zeta in H. destruct H as (_ & Hrpc & Hget & _).
  split; [exact Hrpc | exact Hget].
Defined.

Lemma predict_reads_only_witness :
  lookup_row "a" (w_catalog Stub.w1) = Some Stub.record_a
  /\ outcome (ModelPredict_post Stub.estimator Stub.predict Stub.load_model
                                "a" Stub.X4 Stub.w1)
     = inr (Stub.y4, 200%Z)
  /\ final (ModelPredict_post Stub.estimator Stub.predict Stub.load_model
                              "a" Stub.X4 Stub.w1)
     = Stub.w1.
Proof.
  split; [reflexivity|].
  destruct (predict_reads_only Stub.estimator Stub.predict Stub.load_model
                               "a" Stub.X4 Stub.w1 Stub.record_a eq_refl)
    as (Hf & _ & Hok & _).
  split; [|exact Hf].
  apply (Hok Stub.y4 Stub.y4); reflexivity.
Defined.

Lemma duplicate_run_id_writes_nothing_witness :
  w_session Stub.w3 = []
  /\ outcome (Stub.train_post "random_forest" Stub.params4 Stub.X4 Stub.y4 Stub.w3)
     = inl (IntegrityError "run0")
  /\ w_catalog (final (Stub.train_post "random_forest" Stub.params4
                                       Stub.X4 Stub.y4 Stub.w3))
     = w_catalog Stub.w3.
Proof.
  split; [reflexivity|].
  assert (Hs : is_Some (AVAILABLE_MODELS !! "random_forest")) by (eexists; reflexivity).
  assert (E : exists m,
             outcome (Stub.train Stub.new_run_id Stub.no_fault "random_forest"
                                 Stub.params4 Stub.X4 Stub.y4 Stub.w3)
             = inr ("run0", m, "runs:/run0/model"))
    by (eexists; vm_compute; reflexivity).
  destruct E as [m E].
  destruct (duplicate_run_id_writes_nothing
              Stub.estimator Stub.construct Stub.fit Stub.predict
              Stub.score Stub.score Stub.score Stub.new_run_id Stub.no_fault
              "random_forest" Stub.params4 ∅ Stub.X4 Stub.y4 Stub.w3 eq_refl Hs)
    as [H _].
  apply (H "run0" m "runs:/run0/model" E).
  eexists. reflexivity.
Defined.

(* ===================================================================== *)
(** ** Runs of the model *)
(* ===================================================================== *)

(** [test_convert_params_logic] of [tests/test_models.py]. *)
Example test_convert_params_logic :
  outcome (convert_params
             (<["n_estimators" := PStr "100"]>
                (<["learning_rate" := PStr "0.05"]>
                   (<["solver" := PStr "liblinear"]>
                      (<["random_state" := PInt 42]> ∅))))
             Stub.w0)
  = inr (<["n_estimators" := PInt 100]>
           (<["learning_rate" := PFloat (FDec false 5 (-2))]>
              (<["solver" := PStr "liblinear"]>
                 (<["random_state" := PInt 42]> ∅)))).
Proof. vm_compute. reflexivity. Qed.

(** A retrain whose training call fails (the tracking server refuses the
    new run): status 500, and the row is still there. *)
Example retrain_failure_keeps_row :
  outcome (ModelRetrain_post Stub.estimator Stub.construct Stub.fit Stub.predict
                             Stub.score Stub.score Stub.score
                             Stub.new_run_id Stub.start_fault
                             "a" Stub.X4 Stub.y4 Stub.w1)
  = inl (HTTPException 500 "Retraining failed: {str(e)}"
                       (Some (LibraryError "MlflowException" "connection refused")))
  /\ w_catalog (final (ModelRetrain_post Stub.estimator Stub.construct Stub.fit Stub.predict
                                         Stub.score Stub.score Stub.score
                                         Stub.new_run_id Stub.start_fault
                                         "a" Stub.X4 Stub.y4 Stub.w1))
     = [Stub.record_a].
Proof. split; vm_compute; reflexivity. Qed.

(** A retrain of an identifier that the catalog does not hold: status 404,
    no event but the two log records, and the state is untouched. *)
Example retrain_unknown_id :
  ModelRetrain_post Stub.estimator Stub.construct Stub.fit Stub.predict
                    Stub.score Stub.score Stub.score
                    Stub.new_run_id Stub.no_fault
                    "b" Stub.X4 Stub.y4 Stub.w1
  = (inl (HTTPException 404 "Model not found" None), Stub.w1,
     [EvLog "flask_app" INFO "Retrain request for model: {model_id}";
      EvLog "flask_app" WARNING "Model not found for retraining: {model_id}"]).
Proof. vm_compute. reflexivity. Qed.
